(** * 1&1 cloud modules: block storage, shared storage and SSH keys

    A shallow embedding of the three Ansible modules
    [oneandone_block_storage.py], [oneandone_shared_storage.py] and
    [oneandone_ssh_key.py].  Every module function becomes a computation
    in a small monad that threads the state of the remote provider and
    the log of calls made on the SDK connection, and that distinguishes
    Python exceptions (caught by [except Exception]) from [SystemExit]
    (raised by [exit_json] and [fail_json], never caught). *)

From Stdlib Require Import String List ZArith Bool Lia.
Import ListNotations.
Local Open Scope string_scope.

#[local] Set Warnings "-register-all".

(** ** Python values *)

(** The values that travel between the modules and the SDK: JSON-like
    data, plus instances of the SDK's request classes ([VObj]). *)
Inductive value : Type :=
| VNone
| VBool (b : bool)
| VInt (z : Z)
| VStr (s : string)
| VList (l : list value)
| VDict (d : list (string * value))
| VObj (cls : string) (fields : list value).

(** Python truthiness, as used by [if x], [x or y] and
    [True if x else False]. *)
Definition truthy (v : value) : bool :=
  match v with
  | VNone => false
  | VBool b => b
  | VInt z => negb (z =? 0)%Z
  | VStr s => negb (s =? "")
  | VList l => match l with [] => false | _ => true end
  | VDict d => match d with [] => false | _ => true end
  | VObj _ _ => true
  end.

Definition is_none (v : value) : bool :=
  match v with VNone => true | _ => false end.

(** Parameters of type [str] and [int] are [None] when not supplied. *)
Definition vstr (o : option string) : value :=
  match o with Some s => VStr s | None => VNone end.

Definition vint (o : option Z) : value :=
  match o with Some z => VInt z | None => VNone end.

(** ['%s' % x] for a [str] parameter. *)
Definition format_s (o : option string) : string :=
  match o with Some s => s | None => "None" end.

Inductive exn : Type :=
| TypeError (msg : string)
| KeyError (key : string)
| RemoteError (msg : string).

(** [str(ex)] *)
Definition str_exn (e : exn) : string :=
  match e with
  | TypeError msg => msg
  | KeyError key => "'" ++ key ++ "'"
  | RemoteError msg => msg
  end.

Fixpoint dict_get (k : string) (d : list (string * value)) : option value :=
  match d with
  | [] => None
  | (k', v) :: rest => if k' =? k then Some v else dict_get k rest
  end.

(** [v[k]] for a string key [k]. *)
Definition subscript (v : value) (k : string) : exn + value :=
  match v with
  | VDict d =>
      match dict_get k d with
      | Some x => inr x
      | None => inl (KeyError k)
      end
  | VNone => inl (TypeError "'NoneType' object is not subscriptable")
  | VBool _ => inl (TypeError "'bool' object is not subscriptable")
  | VInt _ => inl (TypeError "'int' object is not subscriptable")
  | VStr _ => inl (TypeError "string indices must be integers")
  | VList _ => inl (TypeError "list indices must be integers or slices, not str")
  | VObj _ _ => inl (TypeError "object is not subscriptable")
  end.

(** ** The SDK connection and the helpers of [module_utils.oneandone] *)

(** Methods the modules call on [oneandone_conn]. *)
Inductive sdk_method : Type :=
| sdk_create_block_storage
| sdk_modify_block_storage
| sdk_attach_block_storage
| sdk_detach_block_storage
| sdk_delete_block_storage
| sdk_create_shared_storage
| sdk_modify_shared_storage
| sdk_change_password
| sdk_attach_server_shared_storage
| sdk_detach_server_shared_storage
| sdk_delete_shared_storage
| sdk_create_ssh_key
| sdk_modify_ssh_key
| sdk_delete_ssh_key
| sdk_get_ssh_key.

(** Functions imported from [ansible.module_utils.oneandone]: the
    resolvers and the completion waiter.  The module is not among the
    sources, so what they answer is left to the provider below. *)
Inductive helper : Type :=
| get_block_storage
| get_server
| get_shared_storage
| get_shared_storage_server
| get_ssh_key
| wait_for_resource_creation_completion.

Inductive event : Type :=
| SdkCall (m : sdk_method) (args : list value)
| HelperCall (h : helper) (args : list value).

(** Every SDK method the modules call creates, modifies, deletes,
    attaches or detaches, except the read [get_ssh_key]. *)
Definition mutating (m : sdk_method) : bool :=
  match m with
  | sdk_get_ssh_key => false
  | _ => true
  end.

Definition is_mutation (e : event) : bool :=
  match e with
  | SdkCall m _ => mutating m
  | HelperCall _ _ => false
  end.

Definition mutations (t : list event) : list event := filter is_mutation t.

Definition sdk_method_eq_dec (a b : sdk_method) : {a = b} + {a <> b}.
Proof. decide equality. Defined.

Definition is_call (m : sdk_method) (e : event) : bool :=
  match e with
  | SdkCall m' _ => if sdk_method_eq_dec m m' then true else false
  | HelperCall _ _ => false
  end.

Definition calls_of (m : sdk_method) (t : list event) : list event :=
  filter (is_call m) t.

(** The remote provider.  [St] is its state (resources, their statuses,
    the clock); an SDK method or a helper answers with a value or raises,
    and moves the provider to a new state.  Neither the SDK nor the helpers
    are part of the modules: both are parameters of the embedding.  The
    helpers are lookups: they may observe and advance the provider's state
    but do not appear in the log as calls of SDK methods. *)
Record Provider (St : Type) : Type := {
  sdk : sdk_method -> list value -> St -> (exn + value) * St;
  util : helper -> list value -> St -> (exn + value) * St
}.
Arguments sdk {St} _ _ _ _.
Arguments util {St} _ _ _ _.

(** ** Module runs *)

(** How a run ends: [exit_json(changed=..., <kind>=...)] or
    [fail_json(msg=...)]. *)
Inductive outcome : Type :=
| ExitJson (changed : value) (data : option value)
| FailJson (msg : string).

Inductive result (A : Type) : Type :=
| Ret (a : A)
| Raise (e : exn)
| SystemExit (o : outcome).
Arguments Ret {A} _.
Arguments Raise {A} _.
Arguments SystemExit {A} _.

Record World (St : Type) : Type := {
  remote : St;
  trace : list event
}.
Arguments remote {St} _.
Arguments trace {St} _.

Definition M (St A : Type) : Type := World St -> result A * World St.

Section Runtime.
Context {St : Type}.

Definition ret {A} (a : A) : M St A := fun w => (Ret a, w).

Definition bind {A B} (c : M St A) (k : A -> M St B) : M St B :=
  fun w =>
    match c w with
    | (Ret a, w') => k a w'
    | (Raise e, w') => (Raise e, w')
    | (SystemExit o, w') => (SystemExit o, w')
    end.

Definition raise {A} (e : exn) : M St A := fun w => (Raise e, w).

(** [try: body except Exception as ex: handler(ex)].  [SystemExit] is not
    an [Exception] and passes through. *)
Definition try_except {A} (body : M St A) (handler : exn -> M St A) : M St A :=
  fun w =>
    match body w with
    | (Raise e, w') => handler e w'
    | r => r
    end.

Definition exit_json {A} (changed : value) (data : option value) : M St A :=
  fun w => (SystemExit (ExitJson changed data), w).

Definition fail_json {A} (msg : string) : M St A :=
  fun w => (SystemExit (FailJson msg), w).

Definition lift {A} (r : exn + A) : M St A :=
  match r with
  | inl e => raise e
  | inr a => ret a
  end.

Definition getitem (v : value) (k : string) : M St value :=
  lift (subscript v k).

Variable P : Provider St.

Definition call_sdk (m : sdk_method) (args : list value) : M St value :=
  fun w =>
    let (r, st') := sdk P m args (remote w) in
    let w' := {| remote := st'; trace := trace w ++ [SdkCall m args] |} in
    match r with
    | inl e => (Raise e, w')
    | inr v => (Ret v, w')
    end.

Definition call_util (h : helper) (args : list value) : M St value :=
  fun w =>
    let (r, st') := util P h args (remote w) in
    let w' := {| remote := st'; trace := trace w ++ [HelperCall h args] |} in
    match r with
    | inl e => (Raise e, w')
    | inr v => (Ret v, w')
    end.
End Runtime.

Declare Scope py_scope.
Delimit Scope py_scope with py.
Notation "x <- c ;; k" := (bind c (fun x => k))
  (at level 61, c at next level, right associativity) : py_scope.
Notation "' pat <- c ;; k" := (bind c (fun x => match x with pat => k end))
  (at level 61, pat pattern, c at next level, right associativity) : py_scope.
Notation "c ;; k" := (bind c (fun _ => k))
  (at level 61, right associativity) : py_scope.
Local Open Scope py_scope.

(** The module object handed to every function: whether the run is a dry
    run, and the parameters (a record per module, after the types of its
    [argument_spec]). *)
Record AnsibleModule (Params : Type) : Type := {
  check_mode : bool;
  params : Params
}.
Arguments check_mode {Params} _.
Arguments params {Params} _.

(** [choices=['present', 'absent', 'update']] *)
Inductive DesiredState : Type := present | absent | update.

(** [_check_mode(module, result)], identical in the three files. *)
Definition _check_mode {St Params} (module : AnsibleModule Params) (result : value)
  : M St unit :=
  if check_mode module then exit_json result None else ret tt.

(** A call that passes fewer positional arguments than the callee defines
    raises [TypeError] once its arguments have been evaluated. *)
Definition missing_argument {St A} (callee arg : string) : M St A :=
  raise (TypeError (callee ++ "() missing 1 required positional argument: '" ++ arg ++ "'")).

(** ** Construction of the module object *)

Definition count_requested (get : string -> value) (terms : list string) : nat :=
  length (filter (fun t => truthy (get t)) terms).

Definition exclusive_conflict (get : string -> value) (group : list string) : bool :=
  (1 <? count_requested get group)%nat.

Definition together_missing (get : string -> value) (group : list string) : bool :=
  match group with
  | [] => false
  | t :: rest => truthy (get t) && negb (forallb (fun t' => truthy (get t')) rest)
  end.

(** Modelled from the spec: the constructor [AnsibleModule(...)] of the host
    framework ([ansible.module_utils.basic]) is not among the sources.  The
    spec gives its validation as: conflicting or missing parameters are a
    validation error detected before any remote call; the options of a
    [mutually_exclusive] group may not be requested together; attach
    requires its server identifier(s), and for shared storage detach
    requires a server identifier ([required_together], read as the first
    option of a group requiring the others).  [view] reads an option of the
    parameter record by its name. *)
Definition AnsibleModule_new {St Params : Type} (view : Params -> string -> value)
    (mutually_exclusive required_together : list (list string))
    (check : bool) (p : Params) : M St (AnsibleModule Params) :=
  if existsb (exclusive_conflict (view p)) mutually_exclusive then
    fail_json "parameters are mutually exclusive"
  else if existsb (together_missing (view p)) required_together then
    fail_json "parameters are required together"
  else ret {| check_mode := check; params := p |}.

(** ** oneandone_block_storage.py *)

Module BlockStorage.

Record Params : Type := {
  auth_token : option string;
  api_url : option string;
  name : option string;
  block_storage : option string;
  description : option string;
  size : option Z;
  datacenter_id : option string;
  server_id : option string;
  attach : bool;
  detach : bool;
  wait : bool;
  wait_timeout : Z;
  wait_interval : Z;
  state : DesiredState
}.

(** [module.params.get(key)] *)
Definition get (p : Params) (key : string) : value :=
  if key =? "auth_token" then vstr (auth_token p)
  else if key =? "api_url" then vstr (api_url p)
  else if key =? "name" then vstr (name p)
  else if key =? "block_storage" then vstr (block_storage p)
  else if key =? "description" then vstr (description p)
  else if key =? "size" then vint (size p)
  else if key =? "datacenter_id" then vstr (datacenter_id p)
  else if key =? "server_id" then vstr (server_id p)
  else if key =? "attach" then VBool (attach p)
  else if key =? "detach" then VBool (detach p)
  else if key =? "wait" then VBool (wait p)
  else if key =? "wait_timeout" then VInt (wait_timeout p)
  else if key =? "wait_interval" then VInt (wait_interval p)
  else if key =? "state" then
    VStr (match state p with
          | present => "present" | absent => "absent" | update => "update"
          end)
  else VNone.

Section Functions.
Context {St : Type}.
Variable oneandone_conn : Provider St.
Variable HAS_ONEANDONE_SDK : bool.

Definition _attach_block_storage (module : AnsibleModule Params)
    (block_storage_id server_id : value) : M St value :=
  try_except
    (block_storage <- call_sdk oneandone_conn sdk_attach_block_storage
                        [block_storage_id; server_id] ;;
     ret block_storage)
    (fun ex => fail_json (str_exn ex)).

Definition _detach_block_storage (module : AnsibleModule Params)
    (block_storage_id : value) : M St value :=
  try_except
    (block_storage <- call_sdk oneandone_conn sdk_detach_block_storage
                        [block_storage_id] ;;
     ret block_storage)
    (fun ex => fail_json (str_exn ex)).

Definition update_block_storage (module : AnsibleModule Params)
  : M St (bool * value) :=
  try_except
    (let block_storage_id := get (params module) "block_storage" in
     let name := get (params module) "name" in
     let description := get (params module) "description" in
     let server_id := get (params module) "server_id" in
     let attach := get (params module) "attach" in
     let detach := get (params module) "detach" in
     let changed := false in
     block_storage <- call_util oneandone_conn get_block_storage
                        [block_storage_id; VBool true] ;;
     (if is_none block_storage then _check_mode module (VBool false)
      else ret tt) ;;
     '(changed, block_storage) <-
       (if truthy name || truthy description then
          _check_mode module (VBool true) ;;
          id <- getitem block_storage "id" ;;
          block_storage <- call_sdk oneandone_conn sdk_modify_block_storage
                             [id; name; description] ;;
          ret (true, block_storage)
        else ret (changed, block_storage)) ;;
     '(changed, block_storage) <-
       (if truthy attach then
          (if check_mode module then
             server <- call_util oneandone_conn get_server [server_id] ;;
             _check_mode module server
           else ret tt) ;;
          id <- getitem block_storage "id" ;;
          block_storage <- _attach_block_storage module id server_id ;;
          ret (true, block_storage)
        else ret (changed, block_storage)) ;;
     '(changed, block_storage) <-
       (if truthy detach then
          _check_mode module (VBool true) ;;
          id <- getitem block_storage "id" ;;
          _detach_block_storage module id ;;
          _check_mode module (VBool false) ;;
          id <- getitem block_storage "id" ;;
          block_storage <- call_util oneandone_conn get_block_storage
                             [id; VBool true] ;;
          ret (true, block_storage)
        else ret (changed, block_storage)) ;;
     ret (changed, block_storage))
    (fun ex => fail_json (str_exn ex)).

Definition create_block_storage (module : AnsibleModule Params)
  : M St (bool * value) :=
  try_except
    (let name := get (params module) "name" in
     let description := get (params module) "description" in
     let size := get (params module) "size" in
     let server_id := get (params module) "server_id" in
     let datacenter_id := get (params module) "datacenter_id" in
     let wait := get (params module) "wait" in
     let wait_timeout := get (params module) "wait_timeout" in
     let wait_interval := get (params module) "wait_interval" in
     let _block_storage :=
       VObj "BlockStorage" [name; description; size; datacenter_id; server_id] in
     _check_mode module (VBool true) ;;
     block_storage <- call_sdk oneandone_conn sdk_create_block_storage
                        [_block_storage] ;;
     (if truthy wait then
        id <- getitem block_storage "id" ;;
        call_util oneandone_conn wait_for_resource_creation_completion
          [VStr "block_storage"; id; wait_timeout; wait_interval] ;;
        ret tt
      else ret tt) ;;
     let changed := if truthy block_storage then true else false in
     _check_mode module (VBool false) ;;
     ret (changed, block_storage))
    (fun ex => fail_json (str_exn ex)).

Definition remove_block_storage (module : AnsibleModule Params)
  : M St (bool * value) :=
  try_except
    (let blkst_id := get (params module) "name" in
     block_storage_id <- call_util oneandone_conn get_block_storage [blkst_id] ;;
     (if check_mode module then
        (if is_none block_storage_id then _check_mode module (VBool false)
         else ret tt) ;;
        _check_mode module (VBool true)
      else ret tt) ;;
     block_storage <- call_sdk oneandone_conn sdk_delete_block_storage
                        [block_storage_id] ;;
     let changed := if truthy block_storage then true else false in
     id <- getitem block_storage "id" ;;
     name <- getitem block_storage "name" ;;
     ret (changed, VDict [("id", id); ("name", name)]))
    (fun ex => fail_json (str_exn ex)).

(** [main], from the line after the construction of [module].  Both
    branches on [api_url] build the connection [oneandone_conn]. *)
Definition main_body (module : AnsibleModule Params) : M St unit :=
  (if negb HAS_ONEANDONE_SDK then fail_json "1and1 required for this module"
   else ret tt) ;;
  (if negb (truthy (get (params module) "auth_token")) then
     fail_json "auth_token parameter is required."
   else ret tt) ;;
  '(changed, block_storage) <-
    match state (params module) with
    | absent =>
        (if negb (truthy (get (params module) "name")) then
           fail_json "'name' parameter is required to delete a block storage."
         else ret tt) ;;
        try_except (remove_block_storage module)
                   (fun ex => fail_json (str_exn ex))
    | update =>
        (if negb (truthy (get (params module) "block_storage")) then
           fail_json "'block_storage' parameter is required to update a block storage."
         else ret tt) ;;
        try_except (update_block_storage module)
                   (fun ex => fail_json (str_exn ex))
    | present =>
        (if negb (truthy (get (params module) "name")) then
           fail_json "name parameter is required for a new block storage."
         else ret tt) ;;
        (if negb (truthy (get (params module) "size")) then
           fail_json "size parameter is required for a new block storage."
         else ret tt) ;;
        try_except (create_block_storage module)
                   (fun ex => fail_json (str_exn ex))
    end ;;
  exit_json (VBool changed) (Some block_storage).

Definition main (check : bool) (p : Params) : M St unit :=
  module <- AnsibleModule_new get [["attach"; "detach"]]
              [["attach"; "server_id"]] check p ;;
  main_body module.

End Functions.
End BlockStorage.

(** ** oneandone_shared_storage.py *)

Module SharedStorage.

Record Params : Type := {
  auth_token : option string;
  api_url : option string;
  name : option string;
  shared_storage : option string;
  description : option string;
  size : option Z;
  datacenter_id : option string;
  servers : list value;
  server_id : option string;
  password : option string;
  attach : bool;
  detach : bool;
  wait : bool;
  wait_timeout : Z;
  wait_interval : Z;
  state : DesiredState
}.

(** [module.params.get(key)] *)
Definition get (p : Params) (key : string) : value :=
  if key =? "auth_token" then vstr (auth_token p)
  else if key =? "api_url" then vstr (api_url p)
  else if key =? "name" then vstr (name p)
  else if key =? "shared_storage" then vstr (shared_storage p)
  else if key =? "description" then vstr (description p)
  else if key =? "size" then vint (size p)
  else if key =? "datacenter_id" then vstr (datacenter_id p)
  else if key =? "servers" then VList (servers p)
  else if key =? "server_id" then vstr (server_id p)
  else if key =? "password" then vstr (password p)
  else if key =? "attach" then VBool (attach p)
  else if key =? "detach" then VBool (detach p)
  else if key =? "wait" then VBool (wait p)
  else if key =? "wait_timeout" then VInt (wait_timeout p)
  else if key =? "wait_interval" then VInt (wait_interval p)
  else if key =? "state" then
    VStr (match state p with
          | present => "present" | absent => "absent" | update => "update"
          end)
  else VNone.

Section Functions.
Context {St : Type}.
Variable oneandone_conn : Provider St.
Variable HAS_ONEANDONE_SDK : bool.

Definition _attach_shared_storage (module : AnsibleModule Params)
    (shared_storage_id servers : value) : M St value :=
  try_except
    (shared_storage <- call_sdk oneandone_conn sdk_attach_server_shared_storage
                         [shared_storage_id; servers] ;;
     ret shared_storage)
    (fun ex => fail_json (str_exn ex)).

Definition _detach_shared_storage (module : AnsibleModule Params)
    (shared_storage_id server_id : value) : M St value :=
  try_except
    (shared_storage <- call_sdk oneandone_conn sdk_detach_server_shared_storage
                         [shared_storage_id; server_id] ;;
     ret shared_storage)
    (fun ex => fail_json (str_exn ex)).

(** In the detach branch the source calls
    [_detach_shared_storage(module, oneandone_conn, shared_storage['id'])]:
    three arguments for the four parameters of the helper above, so the
    call raises [TypeError] after its arguments are evaluated and the body
    of the helper never runs. *)
Definition update_shared_storage (module : AnsibleModule Params)
  : M St (bool * value) :=
  try_except
    (let shared_storage_id := get (params module) "shared_storage" in
     let name := get (params module) "name" in
     let description := get (params module) "description" in
     let size := get (params module) "size" in
     let servers := get (params module) "servers" in
     let server_id := get (params module) "server_id" in
     let password := get (params module) "password" in
     let attach := get (params module) "attach" in
     let detach := get (params module) "detach" in
     let changed := false in
     shared_storage <- call_util oneandone_conn get_shared_storage
                         [shared_storage_id; VBool true] ;;
     (if is_none shared_storage then _check_mode module (VBool false)
      else ret tt) ;;
     '(changed, shared_storage) <-
       (if truthy name || truthy description || truthy size then
          _check_mode module (VBool true) ;;
          id <- getitem shared_storage "id" ;;
          shared_storage <- call_sdk oneandone_conn sdk_modify_shared_storage
                              [id; name; description; size] ;;
          ret (true, shared_storage)
        else ret (changed, shared_storage)) ;;
     '(changed, shared_storage) <-
       (if truthy password then
          _check_mode module (VBool true) ;;
          shared_storage <- call_sdk oneandone_conn sdk_change_password
                              [password] ;;
          ret (true, shared_storage)
        else ret (changed, shared_storage)) ;;
     '(changed, shared_storage) <-
       (if truthy attach then
          (if check_mode module then _check_mode module servers
           else ret tt) ;;
          id <- getitem shared_storage "id" ;;
          shared_storage <- _attach_shared_storage module id servers ;;
          ret (true, shared_storage)
        else ret (changed, shared_storage)) ;;
     '(changed, shared_storage) <-
       (if truthy detach then
          (if check_mode module then
             ss_server <- call_util oneandone_conn get_shared_storage_server
                            [shared_storage; server_id] ;;
             _check_mode module ss_server
           else ret tt) ;;
          id <- getitem shared_storage "id" ;;
          (missing_argument "_detach_shared_storage" "server_id" : M St value) ;;
          _check_mode module (VBool false) ;;
          id <- getitem shared_storage "id" ;;
          shared_storage <- call_util oneandone_conn get_shared_storage
                              [id; VBool true] ;;
          ret (true, shared_storage)
        else ret (changed, shared_storage)) ;;
     ret (changed, shared_storage))
    (fun ex => fail_json (str_exn ex)).

Definition create_shared_storage (module : AnsibleModule Params)
  : M St (bool * value) :=
  try_except
    (let name := get (params module) "name" in
     let description := get (params module) "description" in
     let size := get (params module) "size" in
     let datacenter_id := get (params module) "datacenter_id" in
     let wait := get (params module) "wait" in
     let wait_timeout := get (params module) "wait_timeout" in
     let wait_interval := get (params module) "wait_interval" in
     let _shared_storage :=
       VObj "SharedStorage" [name; description; size; datacenter_id] in
     _check_mode module (VBool true) ;;
     shared_storage <- call_sdk oneandone_conn sdk_create_shared_storage
                         [_shared_storage] ;;
     (if truthy wait then
        id <- getitem shared_storage "id" ;;
        call_util oneandone_conn wait_for_resource_creation_completion
          [VStr "shared_storage"; id; wait_timeout; wait_interval] ;;
        ret tt
      else ret tt) ;;
     let changed := if truthy shared_storage then true else false in
     _check_mode module (VBool false) ;;
     ret (changed, shared_storage))
    (fun ex => fail_json (str_exn ex)).

Definition remove_shared_storage (module : AnsibleModule Params)
  : M St (bool * value) :=
  try_except
    (let ss_id := get (params module) "name" in
     shared_storage_id <- call_util oneandone_conn get_shared_storage [ss_id] ;;
     (if check_mode module then
        (if is_none shared_storage_id then _check_mode module (VBool false)
         else ret tt) ;;
        _check_mode module (VBool true)
      else ret tt) ;;
     shared_storage <- call_sdk oneandone_conn sdk_delete_shared_storage
                         [shared_storage_id] ;;
     let changed := if truthy shared_storage then true else false in
     id <- getitem shared_storage "id" ;;
     name <- getitem shared_storage "name" ;;
     ret (changed, VDict [("id", id); ("name", name)]))
    (fun ex => fail_json (str_exn ex)).

(** [main], from the line after the construction of [module]. *)
Definition main_body (module : AnsibleModule Params) : M St unit :=
  (if negb HAS_ONEANDONE_SDK then fail_json "1and1 required for this module"
   else ret tt) ;;
  (if negb (truthy (get (params module) "auth_token")) then
     fail_json "auth_token parameter is required."
   else ret tt) ;;
  '(changed, shared_storage) <-
    match state (params module) with
    | absent =>
        (if negb (truthy (get (params module) "name")) then
           fail_json "'name' parameter is required to delete a shared storage."
         else ret tt) ;;
        try_except (remove_shared_storage module)
                   (fun ex => fail_json (str_exn ex))
    | update =>
        (if negb (truthy (get (params module) "shared_storage")) then
           fail_json "'shared_storage' parameter is required to update a shared storage."
         else ret tt) ;;
        try_except (update_shared_storage module)
                   (fun ex => fail_json (str_exn ex))
    | present =>
        (if negb (truthy (get (params module) "name")) then
           fail_json "name parameter is required for a new shared storage."
         else ret tt) ;;
        (if negb (truthy (get (params module) "size")) then
           fail_json "size parameter is required for a new shared storage."
         else ret tt) ;;
        try_except (create_shared_storage module)
                   (fun ex => fail_json (str_exn ex))
    end ;;
  exit_json (VBool changed) (Some shared_storage).

Definition main (check : bool) (p : Params) : M St unit :=
  module <- AnsibleModule_new get [["attach"; "detach"]]
              [["attach"; "servers"]; ["detach"; "server_id"]] check p ;;
  main_body module.

End Functions.
End SharedStorage.

(** ** oneandone_ssh_key.py *)

Module SshKey.

Record Params : Type := {
  auth_token : option string;
  api_url : option string;
  ssh_key_id : option string;
  name : option string;
  description : option string;
  public_key : option string;
  ssh_key : option string;
  wait : bool;
  wait_timeout : Z;
  wait_interval : Z;
  state : DesiredState
}.

(** [module.params.get(key)] *)
Definition get (p : Params) (key : string) : value :=
  if key =? "auth_token" then vstr (auth_token p)
  else if key =? "api_url" then vstr (api_url p)
  else if key =? "ssh_key_id" then vstr (ssh_key_id p)
  else if key =? "name" then vstr (name p)
  else if key =? "description" then vstr (description p)
  else if key =? "public_key" then vstr (public_key p)
  else if key =? "ssh_key" then vstr (ssh_key p)
  else if key =? "wait" then VBool (wait p)
  else if key =? "wait_timeout" then VInt (wait_timeout p)
  else if key =? "wait_interval" then VInt (wait_interval p)
  else if key =? "state" then
    VStr (match state p with
          | present => "present" | absent => "absent" | update => "update"
          end)
  else VNone.

Section Functions.
Context {St : Type}.
Variable oneandone_conn : Provider St.
Variable HAS_ONEANDONE_SDK : bool.

Definition create_ssh_key (module : AnsibleModule Params)
  : M St (bool * value) :=
  let name := get (params module) "name" in
  let description := get (params module) "description" in
  let public_key := get (params module) "public_key" in
  let wait := get (params module) "wait" in
  let wait_timeout := get (params module) "wait_timeout" in
  let wait_interval := get (params module) "wait_interval" in
  try_except
    (_check_mode module name ;;
     ssh_key <- call_sdk oneandone_conn sdk_create_ssh_key
                  [VObj "SshKey" [name; description; public_key]] ;;
     ssh_key <-
       (if truthy wait then
          id <- getitem ssh_key "id" ;;
          call_util oneandone_conn wait_for_resource_creation_completion
            [VStr "ssh_key"; id; wait_timeout; wait_interval] ;;
          id <- getitem ssh_key "id" ;;
          call_sdk oneandone_conn sdk_get_ssh_key [id]
        else ret ssh_key) ;;
     let changed := if truthy ssh_key then true else false in
     ret (changed, ssh_key))
    (fun e => fail_json (str_exn e)).

Definition update_ssh_key (module : AnsibleModule Params)
  : M St (bool * value) :=
  let ssh_key_id := ssh_key (params module) in
  let name := get (params module) "name" in
  let description := get (params module) "description" in
  let wait := get (params module) "wait" in
  let wait_timeout := get (params module) "wait_timeout" in
  let wait_interval := get (params module) "wait_interval" in
  ssh_key <- call_util oneandone_conn get_ssh_key
               [vstr ssh_key_id; VBool true] ;;
  (if is_none ssh_key then
     _check_mode module (VBool false) ;;
     fail_json ("SSH key " ++ format_s ssh_key_id ++ " not found.")
   else ret tt) ;;
  try_except
    (_check_mode module (VBool true) ;;
     id <- getitem ssh_key "id" ;;
     ssh_key <- call_sdk oneandone_conn sdk_modify_ssh_key
                  [id; name; description] ;;
     ssh_key <-
       (if truthy wait then
          id <- getitem ssh_key "id" ;;
          call_util oneandone_conn wait_for_resource_creation_completion
            [VStr "ssh_key"; id; wait_timeout; wait_interval] ;;
          id <- getitem ssh_key "id" ;;
          call_sdk oneandone_conn sdk_get_ssh_key [id]
        else ret ssh_key) ;;
     let changed := if truthy ssh_key then true else false in
     ret (changed, ssh_key))
    (fun e => fail_json (str_exn e)).

Definition delete_ssh_key (module : AnsibleModule Params)
  : M St (bool * value) :=
  let ssh_key_id := ssh_key_id (params module) in
  ssh_key <- call_util oneandone_conn get_ssh_key
               [vstr ssh_key_id; VBool true] ;;
  (if is_none ssh_key then
     _check_mode module (VBool false) ;;
     fail_json ("SSH key " ++ format_s ssh_key_id ++ " not found.")
   else ret tt) ;;
  try_except
    (_check_mode module (VBool true) ;;
     id <- getitem ssh_key "id" ;;
     deleted_ssh_key <- call_sdk oneandone_conn sdk_delete_ssh_key [id] ;;
     let changed := if truthy deleted_ssh_key then true else false in
     id <- getitem deleted_ssh_key "id" ;;
     name <- getitem deleted_ssh_key "name" ;;
     ret (changed, VDict [("id", id); ("name", name)]))
    (fun e => fail_json (str_exn e)).

(** [main], from the line after the construction of [module].  The update
    branch tests [ssh_key_id] although [update_ssh_key] reads [ssh_key]. *)
Definition main_body (module : AnsibleModule Params) : M St unit :=
  (if negb HAS_ONEANDONE_SDK then fail_json "1and1 required for this module"
   else ret tt) ;;
  (if negb (truthy (get (params module) "auth_token")) then
     fail_json "auth_token parameter is required."
   else ret tt) ;;
  '(changed, ssh_key) <-
    match state (params module) with
    | absent =>
        (if negb (truthy (get (params module) "ssh_key_id")) then
           fail_json "'ssh_key_id' parameter is required to delete a SSH key."
         else ret tt) ;;
        try_except (delete_ssh_key module)
                   (fun e => fail_json (str_exn e))
    | update =>
        (if negb (truthy (get (params module) "ssh_key_id")) then
           fail_json "'ssh_key_id' parameter is required to update a SSH key."
         else ret tt) ;;
        try_except (update_ssh_key module)
                   (fun e => fail_json (str_exn e))
    | present =>
        try_except (create_ssh_key module)
                   (fun e => fail_json (str_exn e))
    end ;;
  exit_json (VBool changed) (Some ssh_key).

Definition main (check : bool) (p : Params) : M St unit :=
  module <- AnsibleModule_new get [] [] check p ;;
  main_body module.

End Functions.
End SshKey.

(** * Runs of the three modules *)

Definition start {St : Type} (st : St) : World St :=
  {| remote := st; trace := [] |}.

Definition outcome_of {St A : Type} (c : M St A) (st : St) : result A :=
  fst (c (start st)).

Definition log_of {St A : Type} (c : M St A) (st : St) : list event :=
  trace (snd (c (start st))).

Definition final_of {St A : Type} (c : M St A) (st : St) : St :=
  remote (snd (c (start st))).

(** One invocation of one of the three modules, by resource kind. *)
Inductive invocation : Type :=
| BlockStorageRun (m : AnsibleModule BlockStorage.Params)
| SharedStorageRun (m : AnsibleModule SharedStorage.Params)
| SshKeyRun (m : AnsibleModule SshKey.Params).

Definition run {St : Type} (conn : Provider St) (has_sdk : bool)
    (i : invocation) : M St unit :=
  match i with
  | BlockStorageRun m => BlockStorage.main_body conn has_sdk m
  | SharedStorageRun m => SharedStorage.main_body conn has_sdk m
  | SshKeyRun m => SshKey.main_body conn has_sdk m
  end.

(** The same invocation through [main], constructor included. *)
Definition invoke {St : Type} (conn : Provider St) (has_sdk : bool)
    (i : invocation) : M St unit :=
  match i with
  | BlockStorageRun m => BlockStorage.main conn has_sdk (check_mode m) (params m)
  | SharedStorageRun m => SharedStorage.main conn has_sdk (check_mode m) (params m)
  | SshKeyRun m => SshKey.main conn has_sdk (check_mode m) (params m)
  end.

Definition dry_run (i : invocation) : bool :=
  match i with
  | BlockStorageRun m => check_mode m
  | SharedStorageRun m => check_mode m
  | SshKeyRun m => check_mode m
  end.

Definition desired (i : invocation) : DesiredState :=
  match i with
  | BlockStorageRun m => BlockStorage.state (params m)
  | SharedStorageRun m => SharedStorage.state (params m)
  | SshKeyRun m => SshKey.state (params m)
  end.

(** The option of the invocation called [key], as [module.params.get]. *)
Definition option_of (i : invocation) (key : string) : value :=
  match i with
  | BlockStorageRun m => BlockStorage.get (params m) key
  | SharedStorageRun m => SharedStorage.get (params m) key
  | SshKeyRun m => SshKey.get (params m) key
  end.

(** The checks [main] makes before it dispatches on the state all pass: the
    SDK is importable, a token is given, and so are the options the state
    requires. *)
Definition ready (has_sdk : bool) (i : invocation) : bool :=
  has_sdk && truthy (option_of i "auth_token") &&
  match i, desired i with
  | BlockStorageRun _, absent => truthy (option_of i "name")
  | BlockStorageRun _, update => truthy (option_of i "block_storage")
  | SharedStorageRun _, absent => truthy (option_of i "name")
  | SharedStorageRun _, update => truthy (option_of i "shared_storage")
  | SshKeyRun _, absent => truthy (option_of i "ssh_key_id")
  | SshKeyRun _, update => truthy (option_of i "ssh_key_id")
  | SshKeyRun _, present => true
  | _, present => truthy (option_of i "name") && truthy (option_of i "size")
  end.

(** No helper of [module_utils.oneandone] raises. *)
Definition lookups_succeed {St : Type} (conn : Provider St) : Prop :=
  forall h args st, exists v st', util conn h args st = (inr v, st').

(** The remote question or action [e] put to the provider in state [st]. *)
Definition answer {St : Type} (conn : Provider St) (e : event) (st : St)
  : (exn + value) * St :=
  match e with
  | SdkCall m args => sdk conn m args st
  | HelperCall h args => util conn h args st
  end.

(** ** The remote calls of each function, by resource kind *)

Definition create_method (i : invocation) : sdk_method :=
  match i with
  | BlockStorageRun _ => sdk_create_block_storage
  | SharedStorageRun _ => sdk_create_shared_storage
  | SshKeyRun _ => sdk_create_ssh_key
  end.

(** The request object the create function builds from the options. *)
Definition create_request (i : invocation) : value :=
  match i with
  | BlockStorageRun _ =>
      VObj "BlockStorage"
        [option_of i "name"; option_of i "description"; option_of i "size";
         option_of i "datacenter_id"; option_of i "server_id"]
  | SharedStorageRun _ =>
      VObj "SharedStorage"
        [option_of i "name"; option_of i "description"; option_of i "size";
         option_of i "datacenter_id"]
  | SshKeyRun _ =>
      VObj "SshKey"
        [option_of i "name"; option_of i "description";
         option_of i "public_key"]
  end.

(** The resolver call of the remove/delete function. *)
Definition absent_lookup (i : invocation) : event :=
  match i with
  | BlockStorageRun _ => HelperCall get_block_storage [option_of i "name"]
  | SharedStorageRun _ => HelperCall get_shared_storage [option_of i "name"]
  | SshKeyRun _ =>
      HelperCall get_ssh_key [option_of i "ssh_key_id"; VBool true]
  end.

(** The resolver call of the update function. *)
Definition update_lookup (i : invocation) : event :=
  match i with
  | BlockStorageRun _ =>
      HelperCall get_block_storage [option_of i "block_storage"; VBool true]
  | SharedStorageRun _ =>
      HelperCall get_shared_storage [option_of i "shared_storage"; VBool true]
  | SshKeyRun _ => HelperCall get_ssh_key [option_of i "ssh_key"; VBool true]
  end.

(** Whether the invocation asks for a rename, a new description or (shared
    storage) a new size; an SSH key update always modifies. *)
Definition renames (i : invocation) : bool :=
  match i with
  | BlockStorageRun _ =>
      truthy (option_of i "name") || truthy (option_of i "description")
  | SharedStorageRun _ =>
      truthy (option_of i "name") || truthy (option_of i "description")
      || truthy (option_of i "size")
  | SshKeyRun _ => true
  end.

(** The modify call on the resource with id [rid]. *)
Definition modify_call (i : invocation) (rid : value) : event :=
  match i with
  | BlockStorageRun _ =>
      SdkCall sdk_modify_block_storage
        [rid; option_of i "name"; option_of i "description"]
  | SharedStorageRun _ =>
      SdkCall sdk_modify_shared_storage
        [rid; option_of i "name"; option_of i "description"; option_of i "size"]
  | SshKeyRun _ =>
      SdkCall sdk_modify_ssh_key
        [rid; option_of i "name"; option_of i "description"]
  end.

(** The attach call on the resource with id [rid] (the SSH key module has
    none: the read [get_ssh_key] stands in). *)
Definition attach_call (i : invocation) (rid : value) : event :=
  match i with
  | BlockStorageRun _ =>
      SdkCall sdk_attach_block_storage [rid; option_of i "server_id"]
  | SharedStorageRun _ =>
      SdkCall sdk_attach_server_shared_storage [rid; option_of i "servers"]
  | SshKeyRun _ => SdkCall sdk_get_ssh_key [rid]
  end.

(** [str] of the [TypeError] of the detach call in [update_shared_storage]
    (in the wording of Python 3). *)
Definition detach_arity_message : string :=
  "_detach_shared_storage() missing 1 required positional argument: 'server_id'".

(** * The completion waiter *)

Module Waiter.

Local Open Scope Z_scope.

(** What one status poll returns. *)
Record Resource : Type := {
  resource_id : string;
  status : string
}.

(** The transitional state of a resource that is being provisioned. *)
Definition creating (r : Resource) : bool := (status r =? "creating")%string.

Inductive wait_result : Type :=
| Completed (r : Resource)
| TimeoutError.

Section Polling.

(** The snapshot the provider gives when it is polled [t] seconds after the
    wait began: the provider moves the status on its own. *)
Variable poll : Z -> Resource.

(** Modelled from the spec: [wait_for_resource_creation_completion] is
    imported from [ansible.module_utils.oneandone], which is not among the
    sources.  The spec gives its contract,
    [wait(kind, id, timeout, interval) -> Resource | TimeoutError], and its
    algorithm: poll the status at a fixed interval; terminate successfully
    as soon as the status leaves the transitional "creating" state;
    terminate with [TimeoutError] once the elapsed time exceeds the timeout;
    with [timeout < interval], one poll before timing out.  One round of the
    loop polls, returns if the status has left "creating", sleeps one
    interval and gives up if the time elapsed by then exceeds the timeout.
    The loop need not end (an interval of zero never uses up the timeout),
    so it runs on [fuel]; the result carries the number of polls made. *)
Fixpoint wait_loop (fuel : nat) (timeout interval elapsed : Z) (polls : nat)
  : option (wait_result * nat) :=
  match fuel with
  | O => None
  | S fuel' =>
      let r := poll elapsed in
      if negb (creating r) then Some (Completed r, S polls)
      else
        let elapsed' := elapsed + interval in
        if timeout <? elapsed' then Some (TimeoutError, S polls)
        else wait_loop fuel' timeout interval elapsed' (S polls)
  end.

Definition wait_for_resource_creation_completion (fuel : nat)
    (wait_timeout wait_interval : Z) : option (wait_result * nat) :=
  wait_loop fuel wait_timeout wait_interval 0 0.

End Polling.
End Waiter.

(** * A provider and options to run the modules on *)

(** An in-memory provider with one list of resources, each an id and a
    name.  The resolvers find a resource by id or by name; create adds a
    resource, modify renames one, delete removes one; a block storage can
    be attached to the server ["s1"] only. *)

Definition Cloud : Type := list (string * string).

Definition snapshot (r : string * string) : value :=
  VDict [("id", VStr (fst r)); ("name", VStr (snd r))].

Fixpoint find_resource (key : string) (st : Cloud) : option (string * string) :=
  match st with
  | [] => None
  | r :: rest =>
      if (fst r =? key) || (snd r =? key) then Some r
      else find_resource key rest
  end.

Fixpoint rename_resource (id : string) (new_name : string) (st : Cloud) : Cloud :=
  match st with
  | [] => []
  | r :: rest =>
      if fst r =? id then (id, new_name) :: rest
      else r :: rename_resource id new_name rest
  end.

Fixpoint drop_resource (id : string) (st : Cloud) : Cloud :=
  match st with
  | [] => []
  | r :: rest => if fst r =? id then rest else r :: drop_resource id rest
  end.

Definition cloud_util (h : helper) (args : list value) (st : Cloud)
  : (exn + value) * Cloud :=
  match h, args with
  | wait_for_resource_creation_completion, _ => (inr VNone, st)
  | get_server, [VStr key] =>
      (inr (if key =? "s1" then VDict [("id", VStr "s1")] else VNone), st)
  | get_server, _ => (inr VNone, st)
  | get_shared_storage_server, _ => (inr VNone, st)
  | _, [VStr key; VBool true] =>
      (inr match find_resource key st with
           | Some r => snapshot r
           | None => VNone
           end, st)
  | _, [VStr key] =>
      (inr match find_resource key st with
           | Some r => VStr (fst r)
           | None => VNone
           end, st)
  | _, _ => (inr VNone, st)
  end.

Definition cloud_create (args : list value) (st : Cloud) : (exn + value) * Cloud :=
  match args with
  | [VObj _ (VStr new_name :: _)] =>
      let r := ("id-" ++ new_name, new_name) in
      (inr (snapshot r), (st ++ [r])%list)
  | _ => (inl (RemoteError "400 Bad Request"), st)
  end.

Definition cloud_modify (args : list value) (st : Cloud) : (exn + value) * Cloud :=
  match args with
  | VStr id :: new_name :: _ =>
      match find_resource id st, new_name with
      | Some r, VStr n => (inr (snapshot (fst r, n)), rename_resource (fst r) n st)
      | Some r, _ => (inr (snapshot r), st)
      | None, _ => (inl (RemoteError "404 Not Found"), st)
      end
  | _ => (inl (RemoteError "400 Bad Request"), st)
  end.

Definition cloud_delete (args : list value) (st : Cloud) : (exn + value) * Cloud :=
  match args with
  | [VStr id] =>
      match find_resource id st with
      | Some r => (inr (snapshot r), drop_resource (fst r) st)
      | None => (inl (RemoteError "404 Not Found"), st)
      end
  | _ => (inl (RemoteError "400 Bad Request"), st)
  end.

Definition cloud_sdk (m : sdk_method) (args : list value) (st : Cloud)
  : (exn + value) * Cloud :=
  match m with
  | sdk_create_block_storage | sdk_create_shared_storage | sdk_create_ssh_key =>
      cloud_create args st
  | sdk_modify_block_storage | sdk_modify_shared_storage | sdk_modify_ssh_key =>
      cloud_modify args st
  | sdk_delete_block_storage | sdk_delete_shared_storage | sdk_delete_ssh_key =>
      cloud_delete args st
  | sdk_attach_block_storage =>
      match args with
      | [VStr id; VStr "s1"] =>
          match find_resource id st with
          | Some r => (inr (snapshot r), st)
          | None => (inl (RemoteError "404 Not Found"), st)
          end
      | _ => (inl (RemoteError "server not found"), st)
      end
  | sdk_attach_server_shared_storage =>
      match args with
      | [VStr id; VList []] => (inl (RemoteError "400 Bad Request"), st)
      | [VStr id; VList _] =>
          match find_resource id st with
          | Some r => (inr (snapshot r), st)
          | None => (inl (RemoteError "404 Not Found"), st)
          end
      | _ => (inl (RemoteError "400 Bad Request"), st)
      end
  | sdk_get_ssh_key =>
      match args with
      | [VStr id] =>
          match find_resource id st with
          | Some r => (inr (snapshot r), st)
          | None => (inl (RemoteError "404 Not Found"), st)
          end
      | _ => (inl (RemoteError "400 Bad Request"), st)
      end
  | _ => (inl (RemoteError "405 Method Not Allowed"), st)
  end.

Definition cloud : Provider Cloud := {| sdk := cloud_sdk; util := cloud_util |}.

Definition block_storage_options (st : DesiredState)
    (name block_storage : option string) (size : option Z)
    (server_id : option string) (attach detach : bool)
  : BlockStorage.Params :=
  {| BlockStorage.auth_token := Some "token";
     BlockStorage.api_url := None;
     BlockStorage.name := name;
     BlockStorage.block_storage := block_storage;
     BlockStorage.description := None;
     BlockStorage.size := size;
     BlockStorage.datacenter_id := None;
     BlockStorage.server_id := server_id;
     BlockStorage.attach := attach;
     BlockStorage.detach := detach;
     BlockStorage.wait := true;
     BlockStorage.wait_timeout := 600;
     BlockStorage.wait_interval := 5;
     BlockStorage.state := st |}.

Definition shared_storage_options (st : DesiredState)
    (name shared_storage : option string) (size : option Z)
    (servers : list value) (server_id : option string) (attach detach : bool)
  : SharedStorage.Params :=
  {| SharedStorage.auth_token := Some "token";
     SharedStorage.api_url := None;
     SharedStorage.name := name;
     SharedStorage.shared_storage := shared_storage;
     SharedStorage.description := None;
     SharedStorage.size := size;
     SharedStorage.datacenter_id := None;
     SharedStorage.servers := servers;
     SharedStorage.server_id := server_id;
     SharedStorage.password := None;
     SharedStorage.attach := attach;
     SharedStorage.detach := detach;
     SharedStorage.wait := true;
     SharedStorage.wait_timeout := 600;
     SharedStorage.wait_interval := 5;
     SharedStorage.state := st |}.

Definition ssh_key_options (st : DesiredState)
    (ssh_key_id name ssh_key : option string) : SshKey.Params :=
  {| SshKey.auth_token := Some "token";
     SshKey.api_url := None;
     SshKey.ssh_key_id := ssh_key_id;
     SshKey.name := name;
     SshKey.description := None;
     SshKey.public_key := None;
     SshKey.ssh_key := ssh_key;
     SshKey.wait := true;
     SshKey.wait_timeout := 600;
     SshKey.wait_interval := 5;
     SshKey.state := st |}.

(** A resource that is "creating" for ten seconds and "active" afterwards. *)
Definition ready_after_ten (t : Z) : Waiter.Resource :=
  {| Waiter.resource_id := "id-1";
     Waiter.status := if (t <? 10)%Z then "creating" else "active" |}.

(** * Properties *)

(** ** Proof automation: symbolic execution of a run *)

Arguments subscript : simpl never.
Arguments dict_get : simpl never.

Ltac unfold_run :=
  unfold outcome_of, log_of, final_of, start, run, invoke, ready, dry_run,
    desired, option_of,
    BlockStorage.main, BlockStorage.main_body,
    BlockStorage.update_block_storage, BlockStorage.create_block_storage,
    BlockStorage.remove_block_storage,
    BlockStorage._attach_block_storage, BlockStorage._detach_block_storage,
    SharedStorage.main, SharedStorage.main_body,
    SharedStorage.update_shared_storage, SharedStorage.create_shared_storage,
    SharedStorage.remove_shared_storage,
    SharedStorage._attach_shared_storage,
    SshKey.main, SshKey.main_body,
    SshKey.create_ssh_key, SshKey.update_ssh_key, SshKey.delete_ssh_key,
    AnsibleModule_new, _check_mode, missing_argument,
    bind, ret, try_except, exit_json, fail_json, getitem, lift, raise,
    call_sdk, call_util in *.

(** One step: split on the innermost test or remote answer the run is
    waiting for. *)
Ltac case_step :=
  match goal with
  | H : sdk ?P ?m ?a ?s = _ |- context [sdk ?P ?m ?a ?s] => rewrite H
  | H : util ?P ?h ?a ?s = _ |- context [util ?P ?h ?a ?s] => rewrite H
  | H : subscript ?v ?k = _ |- context [subscript ?v ?k] => rewrite H
  | H : truthy ?v = _ |- context [truthy ?v] => rewrite H
  | H : is_none ?v = _ |- context [is_none ?v] => rewrite H
  | |- context [if ?b then _ else _] => is_var b; destruct b
  | |- context [negb ?b] => is_var b; destruct b
  | |- context [match ?x with _ => _ end] => is_var x; destruct x
  | |- context [truthy ?v] => destruct (truthy v) eqn:?
  | |- context [is_none ?v] => is_var v; destruct (is_none v) eqn:?
  | |- context [subscript ?v ?k] => destruct (subscript v k) eqn:?
  | |- context [sdk ?P ?m ?a ?s] =>
      destruct (sdk P m a s) as [[?|?] ?] eqn:?
  | |- context [util ?P ?h ?a ?s] =>
      destruct (util P h a s) as [[?|?] ?] eqn:?
  end.

Ltac lookup_raised H :=
  match goal with
  | E : util ?P ?h ?a ?s = (inl _, _) |- _ =>
      exfalso; destruct (H h a s) as (? & ? & E'); rewrite E' in E; discriminate
  end.

Ltac crunch :=
  repeat (cbn in *; try reflexivity; try discriminate; case_step).

Lemma cloud_lookups_succeed : lookups_succeed cloud.
Proof.
  intros h args st; cbn; unfold cloud_util.
  destruct h; repeat (match goal with
    | |- context [match ?x with _ => _ end] => destruct x
    end); eauto.
Qed.

Lemma subscript_not_none (v : value) (k : string) (x : value) :
  subscript v k = inr x -> is_none v = false.
Proof. unfold subscript; destruct v; intros H; try reflexivity; discriminate H. Qed.

(** ** Sample runs *)

(** Creating the block storage ["x"] on an empty provider: one create call,
    [changed=true], and the snapshot carries the id and the name. *)
Example create_block_storage_x :
  let i := BlockStorageRun
             {| check_mode := false;
                params := block_storage_options present (Some "x") None
                            (Some 20%Z) None false false |} in
  outcome_of (run cloud true i) []
    = SystemExit (ExitJson (VBool true) (Some (snapshot ("id-x", "x")))) /\
  mutations (log_of (run cloud true i) [])
    = [SdkCall sdk_create_block_storage
         [VObj "BlockStorage" [VStr "x"; VNone; VInt 20; VNone; VNone]]].
Proof. cbv zeta. split; reflexivity. Qed.

(** Removing it again: the resolver gives the id, the delete call removes
    the resource. *)
Example remove_block_storage_x :
  let i := BlockStorageRun
             {| check_mode := false;
                params := block_storage_options absent (Some "x") None None
                            None false false |} in
  outcome_of (run cloud true i) [("id-x", "x")]
    = SystemExit (ExitJson (VBool true) (Some (snapshot ("id-x", "x")))) /\
  log_of (run cloud true i) [("id-x", "x")]
    = [HelperCall get_block_storage [VStr "x"];
       SdkCall sdk_delete_block_storage [VStr "id-x"]] /\
  final_of (run cloud true i) [("id-x", "x")] = [].
Proof. cbv zeta. repeat split. Qed.

(** A dry run of an attach on a shared storage hands the [servers] list
    itself to [_check_mode]: the would-change value it reports is that
    list. *)
Example dry_run_attach_reports_servers :
  let servers := [VDict [("id", VStr "s1"); ("rights", VStr "R")]] in
  let m := {| check_mode := true;
              params := shared_storage_options update None (Some "data")
                          None servers None true false |} in
  outcome_of (SharedStorage.main_body cloud true m) [("id-1", "data")]
    = SystemExit (ExitJson (VList servers) None) /\
  log_of (SharedStorage.main_body cloud true m) [("id-1", "data")]
    = [HelperCall get_shared_storage [VStr "data"; VBool true]].
Proof. cbv zeta. split; reflexivity. Qed.

(** ** C1: the dry-run gate *)

(** The value a lookup answers ([None] when it raises). *)
Definition found {St : Type} (conn : Provider St) (e : event) (st : St) : value :=
  match fst (answer conn e st) with
  | inr v => v
  | inl _ => VNone
  end.

(** What a dry run reports, read off the gates of the three modules: the
    [changed] value handed to [exit_json] and the resource that goes with
    it.  The gate of the first decision point reached decides.  The value
    is a boolean except where the code hands an object to the gate: the
    server found by [get_server] (block storage attach), the [servers]
    option (shared storage attach), the server found by
    [get_shared_storage_server] (shared storage detach) and the [name]
    option (SSH key present). *)
Definition would_change {St : Type} (conn : Provider St) (i : invocation)
    (st : St) : value * option value :=
  match desired i with
  | present =>
      match i with
      | SshKeyRun _ => (option_of i "name", None)
      | _ => (VBool true, None)
      end
  | absent =>
      (VBool (negb (is_none (found conn (absent_lookup i) st))), None)
  | update =>
      let r := found conn (update_lookup i) st in
      let st1 := snd (answer conn (update_lookup i) st) in
      if is_none r then (VBool false, None)
      else
        match i with
        | BlockStorageRun _ =>
            if renames i then (VBool true, None)
            else if truthy (option_of i "attach") then
              (found conn (HelperCall get_server [option_of i "server_id"]) st1,
               None)
            else if truthy (option_of i "detach") then (VBool true, None)
            else (VBool false, Some r)
        | SharedStorageRun _ =>
            if renames i then (VBool true, None)
            else if truthy (option_of i "password") then (VBool true, None)
            else if truthy (option_of i "attach") then
              (option_of i "servers", None)
            else if truthy (option_of i "detach") then
              (found conn
                 (HelperCall get_shared_storage_server
                    [r; option_of i "server_id"]) st1,
               None)
            else (VBool false, Some r)
        | SshKeyRun _ => (VBool true, None)
        end
  end.

(** C1, counterexample.  What a dry run reports is not always a boolean.
    A dry run of an attach on the shared storage ["data"] reports the
    [servers] list itself; a dry run of creating the SSH key ["laptop"]
    reports that name; a dry run of attaching the block storage ["data"] to
    the unknown server ["s9"] reports [None], what [get_server] found. *)
Lemma dry_run_reports_an_object_not_a_boolean :
  let servers := [VDict [("id", VStr "s1"); ("rights", VStr "R")]] in
  let shared := SharedStorageRun
                  {| check_mode := true;
                     params := shared_storage_options update None
                                 (Some "data") None servers None true false |} in
  let key := SshKeyRun
               {| check_mode := true;
                  params := ssh_key_options present None (Some "laptop")
                              None |} in
  let block := BlockStorageRun
                 {| check_mode := true;
                    params := block_storage_options update None (Some "data")
                                None (Some "s9") true false |} in
  outcome_of (run cloud true shared) [("id-1", "data")]
    = SystemExit (ExitJson (VList servers) None) /\
  outcome_of (run cloud true key) []
    = SystemExit (ExitJson (VStr "laptop") None) /\
  outcome_of (run cloud true block) [("id-1", "data")]
    = SystemExit (ExitJson VNone None).
Proof. cbv zeta. repeat split. Qed.

(** C1, amended.  Dry run: for every resource kind and every desired state,
    a run in check mode issues no mutating call on the SDK connection,
    whatever the provider answers, and ends in [exit_json] or [fail_json].
    When the checks of [main] pass and no lookup raises, it ends in
    [exit_json] and reports the would-change value of the first decision
    point it reaches, as [would_change] gives it: a boolean, or the object
    the code hands to the gate there. *)
Theorem dry_run_reports_without_mutating :
  forall (St : Type) (conn : Provider St) (has_sdk : bool) (i : invocation)
         (st : St),
    dry_run i = true ->
    mutations (log_of (run conn has_sdk i) st) = [] /\
    (exists o, outcome_of (run conn has_sdk i) st = SystemExit o) /\
    (ready has_sdk i = true -> lookups_succeed conn ->
     outcome_of (run conn has_sdk i) st
       = SystemExit (ExitJson (fst (would_change conn i st))
                              (snd (would_change conn i st)))).
Proof.
  intros St conn has_sdk i st Hdry.
  destruct i as [[chk p]|[chk p]|[chk p]]; cbn in Hdry; subst chk;
    destruct p; unfold would_change, found, answer, absent_lookup,
      update_lookup, renames; unfold_run.
  all: crunch; (split; [reflexivity|]); (split; [eexists; reflexivity|]);
    intros Hready Hlook; try discriminate; try lookup_raised Hlook;
    reflexivity.
Qed.

(** A dry run of the attach scenario: nothing is mutated and the [servers]
    list is what is reported. *)
Lemma dry_run_reports_without_mutating_witness :
  let servers := [VDict [("id", VStr "s1"); ("rights", VStr "R")]] in
  let i := SharedStorageRun
             {| check_mode := true;
                params := shared_storage_options update None (Some "data")
                            None servers None true false |} in
  mutations (log_of (run cloud true i) [("id-1", "data")]) = [] /\
  outcome_of (run cloud true i) [("id-1", "data")]
    = SystemExit (ExitJson (VList servers) None).
Proof.
  cbv zeta.
  destruct (dry_run_reports_without_mutating Cloud cloud true
              (SharedStorageRun
                 {| check_mode := true;
                    params := shared_storage_options update None (Some "data")
                                None [VDict [("id", VStr "s1");
                                             ("rights", VStr "R")]]
                                None true false |})
              [("id-1", "data")] eq_refl) as [Hquiet [_ Hreport]].
  split; [exact Hquiet|].
  exact (Hreport eq_refl cloud_lookups_succeed).
Defined.

(** ** C2: state=present *)

(** C2, counterexample.  The provider already holds a block storage named
    ["x"], which the resolver finds; [state=present] with [name="x"] and
    [size=20] still issues the create call, reports [changed=true], and
    leaves two block storages named ["x"]. *)
Lemma present_on_existing_name_creates_again :
  let i := BlockStorageRun
             {| check_mode := false;
                params := block_storage_options present (Some "x") None
                            (Some 20%Z) None false false |} in
  let st := [("id-1", "x")] in
  util cloud get_block_storage [VStr "x"; VBool true] st
    = (inr (snapshot ("id-1", "x")), st) /\
  outcome_of (run cloud true i) st
    = SystemExit (ExitJson (VBool true) (Some (snapshot ("id-x", "x")))) /\
  calls_of sdk_create_block_storage (log_of (run cloud true i) st)
    = [SdkCall sdk_create_block_storage
         [VObj "BlockStorage" [VStr "x"; VNone; VInt 20; VNone; VNone]]] /\
  final_of (run cloud true i) st = [("id-1", "x"); ("id-x", "x")].
Proof. cbv zeta. repeat split. Qed.

(** C2, amended.  For every resource kind, [state=present] outside check
    mode, with the options [main] requires, never consults the resolver:
    the first remote action is the create call, issued whether or not a
    resource of that name exists, and no other mutating call follows.  A run
    that ends in [exit_json] reports as [changed] the truthiness of the
    resource it returns; without [wait], a create call that returns ends the
    run that way. *)
Theorem present_always_issues_create :
  forall (St : Type) (conn : Provider St) (has_sdk : bool) (i : invocation)
         (st : St),
    dry_run i = false ->
    desired i = present ->
    ready has_sdk i = true ->
    (exists rest,
        log_of (run conn has_sdk i) st
          = SdkCall (create_method i) [create_request i] :: rest /\
        mutations rest = []) /\
    (forall changed data,
        outcome_of (run conn has_sdk i) st = SystemExit (ExitJson changed data) ->
        exists r, data = Some r /\ changed = VBool (truthy r)) /\
    (option_of i "wait" = VBool false ->
     forall r st',
       sdk conn (create_method i) [create_request i] st = (inr r, st') ->
       outcome_of (run conn has_sdk i) st
         = SystemExit (ExitJson (VBool (truthy r)) (Some r))).
Proof.
  intros St conn has_sdk i st Hdry Hstate Hready.
  destruct i as [[chk p]|[chk p]|[chk p]]; cbn in Hdry, Hstate; subst chk;
    destruct p; cbn in Hstate; subst; unfold create_method, create_request;
    revert Hready; unfold_run.
  all: crunch; intros Hready; try discriminate Hready; repeat split.
  all: solve
    [ eexists; split; reflexivity
    | intros c d H; cbn in H;
      first [ discriminate H
            | inversion H; subst; eexists; split; [reflexivity | congruence] ]
    | intros Hw r st' H; congruence ].
Qed.

Lemma present_always_issues_create_witness :
  let i := BlockStorageRun
             {| check_mode := false;
                params := block_storage_options present (Some "x") None
                            (Some 20%Z) None false false |} in
  let st := [("id-1", "x")] in
  (exists rest,
      log_of (run cloud true i) st
        = SdkCall (create_method i) [create_request i] :: rest /\
      mutations rest = []) /\
  (forall changed data,
      outcome_of (run cloud true i) st = SystemExit (ExitJson changed data) ->
      exists r, data = Some r /\ changed = VBool (truthy r)) /\
  (option_of i "wait" = VBool false ->
   forall r st',
     sdk cloud (create_method i) [create_request i] st = (inr r, st') ->
     outcome_of (run cloud true i) st
       = SystemExit (ExitJson (VBool (truthy r)) (Some r))).
Proof.
  cbv zeta.
  apply present_always_issues_create; reflexivity.
Defined.

(** ** C3: state=absent on a name that resolves to nothing *)

(** C3, counterexample.  Against an empty provider, outside check mode:
    deleting the SSH key ["k1"] ends in the not-found failure, and deleting
    the block storage ["x"] passes the unresolved id [None] to the remote
    delete call. *)
Lemma absent_on_missing_is_not_a_noop :
  let k := SshKeyRun
             {| check_mode := false;
                params := ssh_key_options absent (Some "k1") None None |} in
  let b := BlockStorageRun
             {| check_mode := false;
                params := block_storage_options absent (Some "x") None None
                            None false false |} in
  answer cloud (absent_lookup k) [] = (inr VNone, []) /\
  outcome_of (run cloud true k) []
    = SystemExit (FailJson "SSH key k1 not found.") /\
  answer cloud (absent_lookup b) [] = (inr VNone, []) /\
  log_of (run cloud true b) []
    = [HelperCall get_block_storage [VStr "x"];
       SdkCall sdk_delete_block_storage [VNone]] /\
  outcome_of (run cloud true b) [] = SystemExit (FailJson "400 Bad Request").
Proof. cbv zeta. repeat split. Qed.

(** C3, amended.  [state=absent] on a name or id the resolver does not find:
    in check mode every resource kind exits with [changed=false] after the
    lookup, with no remote call; outside check mode the SSH key module ends
    in its not-found failure, again with no remote call after the lookup. *)
Theorem absent_on_missing_by_design :
  forall (St : Type) (conn : Provider St) (has_sdk : bool) (i : invocation)
         (st st' : St),
    desired i = absent ->
    ready has_sdk i = true ->
    answer conn (absent_lookup i) st = (inr VNone, st') ->
    (dry_run i = true ->
     outcome_of (run conn has_sdk i) st
       = SystemExit (ExitJson (VBool false) None) /\
     log_of (run conn has_sdk i) st = [absent_lookup i]) /\
    (dry_run i = false ->
     match i with
     | SshKeyRun m =>
         outcome_of (run conn has_sdk i) st
           = SystemExit (FailJson ("SSH key "
                                   ++ format_s (SshKey.ssh_key_id (params m))
                                   ++ " not found.")) /\
         log_of (run conn has_sdk i) st = [absent_lookup i]
     | _ => True
     end).
Proof.
  intros St conn has_sdk i st st' Hstate Hready Hfind.
  destruct i as [[chk p]|[chk p]|[chk p]]; destruct p;
    cbn in Hstate, Hfind; subst; revert Hready; unfold_run;
    crunch; intros Hready; try discriminate Hready;
    split; intros Hmode; try discriminate Hmode; auto.
Qed.

Lemma absent_on_missing_by_design_witness :
  let i := SshKeyRun
             {| check_mode := false;
                params := ssh_key_options absent (Some "k1") None None |} in
  (dry_run i = true ->
   outcome_of (run cloud true i) []
     = SystemExit (ExitJson (VBool false) None) /\
   log_of (run cloud true i) [] = [absent_lookup i]) /\
  (dry_run i = false ->
   outcome_of (run cloud true i) []
     = SystemExit (FailJson ("SSH key " ++ format_s (Some "k1") ++ " not found.")) /\
   log_of (run cloud true i) [] = [absent_lookup i]).
Proof.
  cbv zeta.
  exact (absent_on_missing_by_design Cloud cloud true
           (SshKeyRun
              {| check_mode := false;
                 params := ssh_key_options absent (Some "k1") None None |})
           [] [] eq_refl eq_refl eq_refl).
Defined.

(** ** C4: attach together with detach *)

(** C4.  For the block storage and the shared storage module, an invocation
    with both [attach] and [detach] true ends in the validation failure of
    the constructor, before anything is asked of the provider. *)
Theorem attach_and_detach_rejected :
  forall (St : Type) (conn : Provider St) (has_sdk : bool) (i : invocation)
         (st : St),
    option_of i "attach" = VBool true ->
    option_of i "detach" = VBool true ->
    outcome_of (invoke conn has_sdk i) st
      = SystemExit (FailJson "parameters are mutually exclusive") /\
    log_of (invoke conn has_sdk i) st = [] /\
    final_of (invoke conn has_sdk i) st = st.
Proof.
  intros St conn has_sdk i st Ha Hd.
  destruct i as [[chk p]|[chk p]|[chk p]]; destruct p; cbn in Ha, Hd;
    try discriminate Ha; injection Ha as ->; injection Hd as ->.
  all: repeat split.
Qed.

Lemma attach_and_detach_rejected_witness :
  let i := SharedStorageRun
             {| check_mode := false;
                params := shared_storage_options update None (Some "data")
                            None [VStr "s1"] (Some "s1") true true |} in
  outcome_of (invoke cloud true i) [("id-1", "data")]
    = SystemExit (FailJson "parameters are mutually exclusive") /\
  log_of (invoke cloud true i) [("id-1", "data")] = [] /\
  final_of (invoke cloud true i) [("id-1", "data")] = [("id-1", "data")].
Proof.
  cbv zeta.
  apply attach_and_detach_rejected; reflexivity.
Defined.

(** ** C5: no rollback inside one update *)

(** C5.  One [state=update] run outside check mode that asks for a rename
    and an attach (no password change), on a resource the resolver finds: if
    the modify call returns the renamed resource and the attach call then
    raises, the run ends in [fail_json] with the message of that exception.
    The remote calls of the run are the lookup, the modify call and the
    attach call and nothing after them, so the provider is left in the
    state the failed attach call left it in: renamed, not attached. *)
Theorem rename_then_failed_attach_is_not_rolled_back :
  forall (St : Type) (conn : Provider St) (has_sdk : bool) (i : invocation)
         (st st1 st2 st3 : St) (r rid r2 rid2 : value) (e : exn),
    dry_run i = false ->
    desired i = update ->
    ready has_sdk i = true ->
    renames i = true ->
    truthy (option_of i "password") = false ->
    option_of i "attach" = VBool true ->
    answer conn (update_lookup i) st = (inr r, st1) ->
    subscript r "id" = inr rid ->
    answer conn (modify_call i rid) st1 = (inr r2, st2) ->
    subscript r2 "id" = inr rid2 ->
    answer conn (attach_call i rid2) st2 = (inl e, st3) ->
    outcome_of (run conn has_sdk i) st = SystemExit (FailJson (str_exn e)) /\
    log_of (run conn has_sdk i) st
      = [update_lookup i; modify_call i rid; attach_call i rid2] /\
    final_of (run conn has_sdk i) st = st3.
Proof.
  intros St conn has_sdk i st st1 st2 st3 r rid r2 rid2 e
         Hdry Hstate Hready Hren Hpw Hatt Hfind Hid Hmod Hid2 Hfail.
  pose proof (subscript_not_none _ _ _ Hid) as Hsome.
  destruct i as [[chk p]|[chk p]|[chk p]]; destruct p;
    cbn in Hdry, Hstate, Hatt, Hfind, Hmod, Hfail, Hpw, Hren;
    try discriminate Hatt; injection Hatt as ->; subst;
    revert Hready; unfold_run; crunch; intros Hready;
    try discriminate; repeat split.
Qed.

(** Renaming the block storage ["data"] and attaching it to a server the
    provider does not know: the run fails and the rename stays. *)
Lemma rename_then_failed_attach_witness :
  let i := BlockStorageRun
             {| check_mode := false;
                params := block_storage_options update (Some "renamed")
                            (Some "data") None (Some "s9") true false |} in
  outcome_of (run cloud true i) [("id-1", "data")]
    = SystemExit (FailJson "server not found") /\
  log_of (run cloud true i) [("id-1", "data")]
    = [update_lookup i; modify_call i (VStr "id-1");
       attach_call i (VStr "id-1")] /\
  final_of (run cloud true i) [("id-1", "data")] = [("id-1", "renamed")].
Proof.
  cbv zeta.
  exact (rename_then_failed_attach_is_not_rolled_back Cloud cloud true
           (BlockStorageRun
              {| check_mode := false;
                 params := block_storage_options update (Some "renamed")
                             (Some "data") None (Some "s9") true false |})
           [("id-1", "data")] [("id-1", "data")] [("id-1", "renamed")]
           [("id-1", "renamed")]
           (snapshot ("id-1", "data")) (VStr "id-1")
           (snapshot ("id-1", "renamed")) (VStr "id-1")
           (RemoteError "server not found")
           eq_refl eq_refl eq_refl eq_refl eq_refl eq_refl eq_refl eq_refl
           eq_refl eq_refl eq_refl).
Defined.

(** ** C6: deleting an SSH key that does not exist *)

(** C6.  The SSH key module, [state=absent], with an [ssh_key_id] the
    resolver does not find.  Nothing but the lookup is asked of the
    provider, so no delete call is issued, and [changed] is never reported
    true; the run ends in the failure ["SSH key <id> not found."].  (The
    dry-run gate stands before that failure: a run in check mode exits
    there with [changed=false].) *)
Theorem delete_missing_ssh_key_fails :
  forall (St : Type) (conn : Provider St) (has_sdk : bool)
         (m : AnsibleModule SshKey.Params) (st st' : St),
    SshKey.state (params m) = absent ->
    ready has_sdk (SshKeyRun m) = true ->
    util conn get_ssh_key [vstr (SshKey.ssh_key_id (params m)); VBool true] st
      = (inr VNone, st') ->
    log_of (SshKey.main_body conn has_sdk m) st
      = [HelperCall get_ssh_key
           [vstr (SshKey.ssh_key_id (params m)); VBool true]] /\
    calls_of sdk_delete_ssh_key (log_of (SshKey.main_body conn has_sdk m) st)
      = [] /\
    final_of (SshKey.main_body conn has_sdk m) st = st' /\
    (forall changed data,
        outcome_of (SshKey.main_body conn has_sdk m) st
          = SystemExit (ExitJson changed data) ->
        truthy changed = false) /\
    (check_mode m = false ->
     outcome_of (SshKey.main_body conn has_sdk m) st
       = SystemExit (FailJson ("SSH key "
                               ++ format_s (SshKey.ssh_key_id (params m))
                               ++ " not found."))).
Proof.
  intros St conn has_sdk [chk p] st st' Hstate Hready Hfind.
  destruct p; cbn in Hstate, Hfind; subst.
  revert Hready; unfold_run; crunch; intros Hready; try discriminate Hready.
  all: repeat split; try discriminate.
  all: intros c d H; injection H as <- <-; reflexivity.
Qed.

Lemma delete_missing_ssh_key_fails_witness :
  let m := {| check_mode := false;
              params := ssh_key_options absent (Some "k1") None None |} in
  log_of (SshKey.main_body cloud true m) [("id-7", "other")]
    = [HelperCall get_ssh_key [VStr "k1"; VBool true]] /\
  calls_of sdk_delete_ssh_key
    (log_of (SshKey.main_body cloud true m) [("id-7", "other")]) = [] /\
  outcome_of (SshKey.main_body cloud true m) [("id-7", "other")]
    = SystemExit (FailJson "SSH key k1 not found.").
Proof.
  cbv zeta.
  destruct (delete_missing_ssh_key_fails Cloud cloud true
              {| check_mode := false;
                 params := ssh_key_options absent (Some "k1") None None |}
              [("id-7", "other")] [("id-7", "other")]
              eq_refl eq_refl eq_refl)
    as [Hlog [Hnone [_ [_ Hfail]]]].
  split; [exact Hlog|]. split; [exact Hnone|]. exact (Hfail eq_refl).
Defined.

(** ** C7: attaching servers to a shared storage *)

(** C7.  The shared storage module, [state=update] outside check mode, with
    [attach] true and [detach] false.  Whenever the run ends in [exit_json]
    it reports [changed=true] and the log holds exactly one attach call,
    whose server list is the [servers] option.  When nothing else is asked
    for, the resolver finds the shared storage and the attach call returns,
    the run does end that way: the lookup and that one attach call are all
    it asks of the provider, and it returns what the attach call returned. *)
Theorem attach_servers_issues_one_attach_call :
  forall (St : Type) (conn : Provider St) (has_sdk : bool)
         (m : AnsibleModule SharedStorage.Params) (st : St),
    check_mode m = false ->
    SharedStorage.state (params m) = update ->
    SharedStorage.attach (params m) = true ->
    SharedStorage.detach (params m) = false ->
    (forall changed data,
        outcome_of (SharedStorage.main_body conn has_sdk m) st
          = SystemExit (ExitJson changed data) ->
        changed = VBool true /\
        exists rid,
          calls_of sdk_attach_server_shared_storage
            (log_of (SharedStorage.main_body conn has_sdk m) st)
          = [SdkCall sdk_attach_server_shared_storage
               [rid; VList (SharedStorage.servers (params m))]]) /\
    (forall (st1 st2 : St) (r rid r' : value),
        ready has_sdk (SharedStorageRun m) = true ->
        renames (SharedStorageRun m) = false ->
        truthy (vstr (SharedStorage.password (params m))) = false ->
        answer conn (update_lookup (SharedStorageRun m)) st = (inr r, st1) ->
        subscript r "id" = inr rid ->
        answer conn (attach_call (SharedStorageRun m) rid) st1 = (inr r', st2) ->
        outcome_of (SharedStorage.main_body conn has_sdk m) st
          = SystemExit (ExitJson (VBool true) (Some r')) /\
        log_of (SharedStorage.main_body conn has_sdk m) st
          = [update_lookup (SharedStorageRun m);
             SdkCall sdk_attach_server_shared_storage
               [rid; VList (SharedStorage.servers (params m))]] /\
        final_of (SharedStorage.main_body conn has_sdk m) st = st2).
Proof.
  intros St conn has_sdk [chk p] st Hdry Hstate Hatt Hdet.
  destruct p; cbn in Hdry, Hstate, Hatt, Hdet; subst.
  split.
  - unfold_run; crunch; intros c d H; try discriminate H;
      injection H as <- <-; (split; [reflexivity|]); eexists; reflexivity.
  - intros st1 st2 r rid r' Hready Hren Hpw Hfind Hid Hattach.
    pose proof (subscript_not_none _ _ _ Hid) as Hsome.
    cbn in Hren, Hpw, Hfind, Hattach. revert Hready.
    unfold_run; crunch; intros Hready; try discriminate; repeat split.
Qed.

(** The scenario of the spec: attach the server [s1] with rights [R] to the
    shared storage ["data"]. *)
Lemma attach_servers_witness :
  let servers := [VDict [("id", VStr "s1"); ("rights", VStr "R")]] in
  let m := {| check_mode := false;
              params := shared_storage_options update None (Some "data")
                          None servers None true false |} in
  outcome_of (SharedStorage.main_body cloud true m) [("id-1", "data")]
    = SystemExit (ExitJson (VBool true) (Some (snapshot ("id-1", "data")))) /\
  log_of (SharedStorage.main_body cloud true m) [("id-1", "data")]
    = [HelperCall get_shared_storage [VStr "data"; VBool true];
       SdkCall sdk_attach_server_shared_storage
         [VStr "id-1"; VList servers]] /\
  final_of (SharedStorage.main_body cloud true m) [("id-1", "data")]
    = [("id-1", "data")].
Proof.
  cbv zeta.
  destruct (attach_servers_issues_one_attach_call Cloud cloud true
              {| check_mode := false;
                 params := shared_storage_options update None (Some "data")
                             None [VDict [("id", VStr "s1"); ("rights", VStr "R")]]
                             None true false |}
              [("id-1", "data")] eq_refl eq_refl eq_refl eq_refl)
    as [_ Hscenario].
  exact (Hscenario [("id-1", "data")] [("id-1", "data")]
           (snapshot ("id-1", "data")) (VStr "id-1")
           (snapshot ("id-1", "data"))
           eq_refl eq_refl eq_refl eq_refl eq_refl eq_refl).
Defined.

(** ** C8: the completion waiter *)

Section WaiterFacts.
Import Waiter.
Local Open Scope Z_scope.
Variable poll : Z -> Resource.

Lemma wait_loop_completes (timeout interval : Z) :
  forall (k fuel : nat) (elapsed : Z) (polls : nat),
    (forall j, (j < k)%nat ->
       creating (poll (elapsed + Z.of_nat j * interval)) = true /\
       elapsed + Z.of_nat (S j) * interval <= timeout) ->
    creating (poll (elapsed + Z.of_nat k * interval)) = false ->
    (k < fuel)%nat ->
    wait_loop poll fuel timeout interval elapsed polls
      = Some (Completed (poll (elapsed + Z.of_nat k * interval)),
              (polls + S k)%nat).
Proof.
  induction k as [|k IH]; intros fuel elapsed polls Hbefore Hdone Hfuel;
    destruct fuel as [|fuel]; try lia; cbn [wait_loop].
  - replace (elapsed + Z.of_nat 0 * interval) with elapsed in * by lia.
    rewrite Hdone; cbn. do 2 f_equal. lia.
  - destruct (Hbefore 0%nat ltac:(lia)) as [Hfirst Hroom].
    replace (elapsed + Z.of_nat 0 * interval) with elapsed in Hfirst by lia.
    rewrite Hfirst; cbn.
    destruct (Z.ltb_spec timeout (elapsed + interval)) as [Hlate|_]; [lia|].
    rewrite (IH fuel (elapsed + interval) (S polls)).
    + replace (elapsed + interval + Z.of_nat k * interval)
        with (elapsed + Z.of_nat (S k) * interval) by lia.
      do 2 f_equal. lia.
    + intros j Hj. destruct (Hbefore (S j) ltac:(lia)) as [Hc Hr].
      replace (elapsed + interval + Z.of_nat j * interval)
        with (elapsed + Z.of_nat (S j) * interval) by lia.
      split; [exact Hc|]. lia.
    + replace (elapsed + interval + Z.of_nat k * interval)
        with (elapsed + Z.of_nat (S k) * interval) by lia.
      exact Hdone.
    + lia.
Qed.

Lemma wait_loop_times_out (timeout interval : Z) :
  forall (n fuel : nat) (elapsed : Z) (polls : nat),
    (forall j, (j <= n)%nat ->
       creating (poll (elapsed + Z.of_nat j * interval)) = true) ->
    (forall j, (j < n)%nat ->
       elapsed + Z.of_nat (S j) * interval <= timeout) ->
    timeout < elapsed + Z.of_nat (S n) * interval ->
    (n < fuel)%nat ->
    wait_loop poll fuel timeout interval elapsed polls
      = Some (TimeoutError, (polls + S n)%nat).
Proof.
  induction n as [|n IH]; intros fuel elapsed polls Hstill Hroom Hlate Hfuel;
    destruct fuel as [|fuel]; try lia; cbn [wait_loop];
    pose proof (Hstill 0%nat ltac:(lia)) as Hfirst;
    replace (elapsed + Z.of_nat 0 * interval) with elapsed in Hfirst by lia;
    rewrite Hfirst; cbn.
  - destruct (Z.ltb_spec timeout (elapsed + interval)) as [_|Hle]; [|lia].
    do 2 f_equal. lia.
  - pose proof (Hroom 0%nat ltac:(lia)) as Hr0.
    destruct (Z.ltb_spec timeout (elapsed + interval)) as [Hl|_]; [lia|].
    rewrite (IH fuel (elapsed + interval) (S polls)).
    + do 2 f_equal. lia.
    + intros j Hj. pose proof (Hstill (S j) ltac:(lia)) as Hc.
      replace (elapsed + interval + Z.of_nat j * interval)
        with (elapsed + Z.of_nat (S j) * interval) by lia.
      exact Hc.
    + intros j Hj. pose proof (Hroom (S j) ltac:(lia)). lia.
    + lia.
    + lia.
Qed.

Lemma wait_loop_terminates (timeout interval : Z) :
  0 < interval ->
  forall (fuel : nat) (elapsed : Z) (polls : nat),
    timeout - elapsed < Z.of_nat (S fuel) * interval ->
    exists res n, wait_loop poll (S fuel) timeout interval elapsed polls
                  = Some (res, n).
Proof.
  intros Hpos. induction fuel as [|fuel IH]; intros elapsed polls Hleft;
    cbn [wait_loop]; destruct (creating (poll elapsed)); cbn; eauto.
  - destruct (Z.ltb_spec timeout (elapsed + interval)); [eauto|lia].
  - destruct (Z.ltb_spec timeout (elapsed + interval)); [eauto|].
    apply IH. lia.
Qed.

End WaiterFacts.

(** C8.  The completion waiter, for every timeout and interval.  It polls at
    the times [0], [interval], [2 * interval], ... after the wait began.
    (a) If the status first leaves "creating" at poll [k] and the timeout
    was not exceeded before, it returns the resource seen at that poll,
    after [k + 1] polls.  (b) If the status is still "creating" at every
    poll up to the first moment the elapsed time exceeds the timeout, it
    gives [TimeoutError] at that moment.  (c) With [timeout < interval] it
    makes exactly one poll: it returns that resource if it is no longer
    "creating", and times out otherwise.  (d) With a positive interval the
    loop ends: [timeout / interval + 1] rounds of fuel give a result. *)
Theorem waiter_polls_until_done_or_timeout :
  forall (poll : Z -> Waiter.Resource) (timeout interval : Z),
    (forall k fuel : nat,
        (forall j, (j < k)%nat ->
           Waiter.creating (poll (Z.of_nat j * interval)%Z) = true /\
           (Z.of_nat (S j) * interval <= timeout)%Z) ->
        Waiter.creating (poll (Z.of_nat k * interval)%Z) = false ->
        (k < fuel)%nat ->
        Waiter.wait_for_resource_creation_completion poll fuel timeout interval
          = Some (Waiter.Completed (poll (Z.of_nat k * interval)%Z), S k)) /\
    (forall n fuel : nat,
        (forall j, (j <= n)%nat ->
           Waiter.creating (poll (Z.of_nat j * interval)%Z) = true) ->
        (forall j, (j < n)%nat -> (Z.of_nat (S j) * interval <= timeout)%Z) ->
        (timeout < Z.of_nat (S n) * interval)%Z ->
        (n < fuel)%nat ->
        Waiter.wait_for_resource_creation_completion poll fuel timeout interval
          = Some (Waiter.TimeoutError, S n)) /\
    ((timeout < interval)%Z ->
     forall fuel : nat,
       Waiter.wait_for_resource_creation_completion poll (S fuel) timeout interval
         = Some (if Waiter.creating (poll 0%Z) then Waiter.TimeoutError
                 else Waiter.Completed (poll 0%Z), 1%nat)) /\
    ((0 < interval)%Z ->
     forall fuel : nat,
       (Z.to_nat (timeout / interval) < fuel)%nat ->
       exists res n,
         Waiter.wait_for_resource_creation_completion poll fuel timeout interval
           = Some (res, n)).
Proof.
  intros poll timeout interval.
  unfold Waiter.wait_for_resource_creation_completion.
  split; [|split; [|split]].
  - intros k fuel Hbefore Hdone Hfuel.
    rewrite (wait_loop_completes poll timeout interval k fuel 0 0);
      cbn [Z.add Nat.add]; auto.
  - intros n fuel Hstill Hroom Hlate Hfuel.
    rewrite (wait_loop_times_out poll timeout interval n fuel 0 0);
      cbn [Z.add Nat.add]; auto.
  - intros Hshort fuel. cbn [Waiter.wait_loop].
    destruct (Waiter.creating (poll 0%Z)); cbn; [|reflexivity].
    destruct (Z.ltb_spec timeout interval); [reflexivity|lia].
  - intros Hpos fuel Hfuel. destruct fuel as [|fuel]; [lia|].
    apply wait_loop_terminates; [exact Hpos|].
    destruct (Z.le_gt_cases 0 timeout) as [Hnn|Hneg].
    + pose proof (Z.mod_pos_bound timeout interval Hpos) as Hmod.
      pose proof (Z.div_mod timeout interval ltac:(lia)) as Hdiv.
      pose proof (Z.div_pos timeout interval Hnn Hpos) as Hq.
      assert (timeout / interval < Z.of_nat (S fuel))%Z as Hlt by lia.
      nia.
    + nia.
Qed.

Lemma waiter_witness :
  Waiter.wait_for_resource_creation_completion ready_after_ten 200 600 5
    = Some (Waiter.Completed (ready_after_ten 10), 3%nat) /\
  Waiter.wait_for_resource_creation_completion ready_after_ten 200 7 5
    = Some (Waiter.TimeoutError, 2%nat) /\
  Waiter.wait_for_resource_creation_completion ready_after_ten 1 3 5
    = Some (Waiter.TimeoutError, 1%nat).
Proof.
  destruct (waiter_polls_until_done_or_timeout ready_after_ten 600 5)
    as [Hdone _].
  destruct (waiter_polls_until_done_or_timeout ready_after_ten 7 5)
    as [_ [Hlate _]].
  destruct (waiter_polls_until_done_or_timeout ready_after_ten 3 5)
    as [_ [_ [Hone _]]].
  split; [|split].
  - apply (Hdone 2%nat 200%nat); [|reflexivity|lia].
    intros j Hj. destruct j as [|[|j]]; [split; [reflexivity|lia].. | lia].
  - apply (Hlate 1%nat 200%nat); [| |lia|lia].
    + intros j Hj. destruct j as [|[|j]]; [reflexivity..|lia].
    + intros j Hj. destruct j as [|j]; [cbn; lia|lia].
  - exact (Hone ltac:(lia) 0%nat).
Defined.

(** ** C9: detaching a server from a shared storage *)

(** C9.  Every run of the shared storage module outside check mode with
    [state=update] and [detach] true ends in [fail_json], and no detach call
    ever reaches the provider.  When the checks of [main] pass, nothing else
    is asked for and the resolver finds the shared storage, the failure is
    the [TypeError] of the call that passes three arguments to
    [_detach_shared_storage], which takes four. *)
Theorem shared_storage_detach_always_fails :
  forall (St : Type) (conn : Provider St) (has_sdk : bool)
         (m : AnsibleModule SharedStorage.Params) (st : St),
    check_mode m = false ->
    SharedStorage.state (params m) = update ->
    SharedStorage.detach (params m) = true ->
    (exists msg,
        outcome_of (SharedStorage.main_body conn has_sdk m) st
          = SystemExit (FailJson msg)) /\
    calls_of sdk_detach_server_shared_storage
      (log_of (SharedStorage.main_body conn has_sdk m) st) = [] /\
    (forall (st1 : St) (r rid : value),
        ready has_sdk (SharedStorageRun m) = true ->
        renames (SharedStorageRun m) = false ->
        truthy (vstr (SharedStorage.password (params m))) = false ->
        SharedStorage.attach (params m) = false ->
        answer conn (update_lookup (SharedStorageRun m)) st = (inr r, st1) ->
        subscript r "id" = inr rid ->
        outcome_of (SharedStorage.main_body conn has_sdk m) st
          = SystemExit (FailJson detach_arity_message) /\
        log_of (SharedStorage.main_body conn has_sdk m) st
          = [update_lookup (SharedStorageRun m)]).
Proof.
  intros St conn has_sdk [chk p] st Hdry Hstate Hdet.
  destruct p; cbn in Hdry, Hstate, Hdet; subst.
  split; [|split].
  - unfold_run; crunch; eexists; reflexivity.
  - unfold_run; crunch.
  - intros st1 r rid Hready Hren Hpw Hatt Hfind Hid.
    pose proof (subscript_not_none _ _ _ Hid) as Hsome.
    cbn in Hren, Hpw, Hatt, Hfind; subst. revert Hready.
    unfold_run; crunch; intros Hready; try discriminate; split; reflexivity.
Qed.

Lemma shared_storage_detach_witness :
  let m := {| check_mode := false;
              params := shared_storage_options update None (Some "data")
                          None [] (Some "s1") false true |} in
  (exists msg,
      outcome_of (SharedStorage.main_body cloud true m) [("id-1", "data")]
        = SystemExit (FailJson msg)) /\
  calls_of sdk_detach_server_shared_storage
    (log_of (SharedStorage.main_body cloud true m) [("id-1", "data")]) = [] /\
  outcome_of (SharedStorage.main_body cloud true m) [("id-1", "data")]
    = SystemExit (FailJson detach_arity_message).
Proof.
  cbv zeta.
  destruct (shared_storage_detach_always_fails Cloud cloud true
              {| check_mode := false;
                 params := shared_storage_options update None (Some "data")
                             None [] (Some "s1") false true |}
              [("id-1", "data")] eq_refl eq_refl eq_refl)
    as [Hfail [Hnone Hcause]].
  split; [exact Hfail|]. split; [exact Hnone|].
  exact (proj1 (Hcause [("id-1", "data")] (snapshot ("id-1", "data"))
                  (VStr "id-1") eq_refl eq_refl eq_refl eq_refl eq_refl
                  eq_refl)).
Defined.

(** ** C10: what [changed] means after an update *)

(** C10.  In a [state=update] run outside check mode, [changed] is reported
    true only if a mutating call was issued.  For the block storage and the
    shared storage module, an update that asks for nothing (no name,
    description, size or password, [attach] and [detach] false) returns
    [changed=false] with the snapshot the resolver gave, and the lookup is
    all it asks of the provider. *)
Theorem update_changed_only_after_mutation :
  forall (St : Type) (conn : Provider St) (has_sdk : bool) (i : invocation)
         (st : St),
    dry_run i = false ->
    desired i = update ->
    (forall changed data,
        outcome_of (run conn has_sdk i) st = SystemExit (ExitJson changed data) ->
        truthy changed = true ->
        mutations (log_of (run conn has_sdk i) st) <> []) /\
    (forall (st1 : St) (r : value),
        ready has_sdk i = true ->
        renames i = false ->
        truthy (option_of i "password") = false ->
        option_of i "attach" = VBool false ->
        option_of i "detach" = VBool false ->
        answer conn (update_lookup i) st = (inr r, st1) ->
        outcome_of (run conn has_sdk i) st
          = SystemExit (ExitJson (VBool false) (Some r)) /\
        log_of (run conn has_sdk i) st = [update_lookup i] /\
        mutations (log_of (run conn has_sdk i) st) = [] /\
        final_of (run conn has_sdk i) st = st1).
Proof.
  intros St conn has_sdk i st Hdry Hstate.
  destruct i as [[chk p]|[chk p]|[chk p]]; destruct p;
    cbn in Hdry, Hstate; subst; split.
  all: try (unfold_run; crunch; intros c d H Hc; cbn in H, Hc;
            try discriminate H; injection H as <- <-;
            try discriminate Hc; cbn; discriminate).
  all: intros st1 r Hready Hren Hpw Hatt Hdet Hfind;
    cbn in Hren, Hpw, Hatt, Hdet, Hfind; try discriminate Hatt;
    injection Hatt as ->; injection Hdet as ->; revert Hready;
    unfold_run; crunch; intros Hready; try discriminate; repeat split.
Qed.

Lemma update_changed_only_after_mutation_witness :
  let i := BlockStorageRun
             {| check_mode := false;
                params := block_storage_options update None (Some "data")
                            None None false false |} in
  (forall changed data,
      outcome_of (run cloud true i) [("id-1", "data")]
        = SystemExit (ExitJson changed data) ->
      truthy changed = true ->
      mutations (log_of (run cloud true i) [("id-1", "data")]) <> []) /\
  outcome_of (run cloud true i) [("id-1", "data")]
    = SystemExit (ExitJson (VBool false) (Some (snapshot ("id-1", "data")))) /\
  log_of (run cloud true i) [("id-1", "data")] = [update_lookup i] /\
  mutations (log_of (run cloud true i) [("id-1", "data")]) = [] /\
  final_of (run cloud true i) [("id-1", "data")] = [("id-1", "data")].
Proof.
  cbv zeta.
  destruct (update_changed_only_after_mutation Cloud cloud true
              (BlockStorageRun
                 {| check_mode := false;
                    params := block_storage_options update None (Some "data")
                                None None false false |})
              [("id-1", "data")] eq_refl eq_refl) as [Honly Hnoop].
  split; [exact Honly|].
  exact (Hnoop [("id-1", "data")] (snapshot ("id-1", "data"))
           eq_refl eq_refl eq_refl eq_refl eq_refl eq_refl).
Defined.

(** * More of the modules *)

(** The resource kind handed to the waiter ([OneAndOneResources.<kind>]). *)
Definition kind_name (i : invocation) : value :=
  match i with
  | BlockStorageRun _ => VStr "block_storage"
  | SharedStorageRun _ => VStr "shared_storage"
  | SshKeyRun _ => VStr "ssh_key"
  end.

(** The call of the completion waiter on the resource with id [rid]. *)
Definition wait_call (i : invocation) (rid : value) : event :=
  HelperCall wait_for_resource_creation_completion
    [kind_name i; rid; option_of i "wait_timeout"; option_of i "wait_interval"].

Definition is_wait (e : event) : bool :=
  match e with
  | HelperCall wait_for_resource_creation_completion _ => true
  | _ => false
  end.

Definition delete_method (i : invocation) : sdk_method :=
  match i with
  | BlockStorageRun _ => sdk_delete_block_storage
  | SharedStorageRun _ => sdk_delete_shared_storage
  | SshKeyRun _ => sdk_delete_ssh_key
  end.

(** The block storage and the shared storage module. *)
Definition storage (i : invocation) : bool :=
  match i with
  | SshKeyRun _ => false
  | _ => true
  end.

(** The dict [{'id': ..., 'name': ...}] the remove/delete functions return. *)
Definition id_and_name (id name : value) : value :=
  VDict [("id", id); ("name", name)].

(** [str] of the [TypeError] of [None['id']]. *)
Definition none_subscript_message : string :=
  "'NoneType' object is not subscriptable".

(** A provider like [cloud] whose waiter always times out. *)
Definition slow_cloud : Provider Cloud :=
  {| sdk := cloud_sdk;
     util := fun h args st =>
       match h with
       | wait_for_resource_creation_completion =>
           (inl (RemoteError "Timed out waiting for resource"), st)
       | _ => cloud_util h args st
       end |}.

(** A provider like [cloud] that also serves the detach call. *)
Definition detaching_cloud : Provider Cloud :=
  {| sdk := fun m args st =>
       match m with
       | sdk_detach_block_storage => (inr VNone, st)
       | _ => cloud_sdk m args st
       end;
     util := cloud_util |}.

(** A provider like [cloud] that also serves the password change. *)
Definition password_cloud : Provider Cloud :=
  {| sdk := fun m args st =>
       match m with
       | sdk_change_password =>
           (inr (VDict [("state", VStr "CONFIGURING")]), st)
       | _ => cloud_sdk m args st
       end;
     util := cloud_util |}.

Definition with_password (pw : string) (p : SharedStorage.Params)
  : SharedStorage.Params :=
  {| SharedStorage.auth_token := SharedStorage.auth_token p;
     SharedStorage.api_url := SharedStorage.api_url p;
     SharedStorage.name := SharedStorage.name p;
     SharedStorage.shared_storage := SharedStorage.shared_storage p;
     SharedStorage.description := SharedStorage.description p;
     SharedStorage.size := SharedStorage.size p;
     SharedStorage.datacenter_id := SharedStorage.datacenter_id p;
     SharedStorage.servers := SharedStorage.servers p;
     SharedStorage.server_id := SharedStorage.server_id p;
     SharedStorage.password := Some pw;
     SharedStorage.attach := SharedStorage.attach p;
     SharedStorage.detach := SharedStorage.detach p;
     SharedStorage.wait := SharedStorage.wait p;
     SharedStorage.wait_timeout := SharedStorage.wait_timeout p;
     SharedStorage.wait_interval := SharedStorage.wait_interval p;
     SharedStorage.state := SharedStorage.state p |}.

Lemma subscript_none (k : string) :
  subscript VNone k = inl (TypeError none_subscript_message).
Proof. reflexivity. Qed.

(** [crunch], for runs that subscript [None]. *)
Ltac crunch_none :=
  repeat (cbn in *; rewrite ?subscript_none; try reflexivity;
          try discriminate; case_step).

(** * Further properties of the modules *)

(** X1.  No run ends in an uncaught exception or falls off the end of
    [main]: whatever the provider answers or raises, every run of every
    module ends in [exit_json] or [fail_json]. *)
Theorem run_ends_in_an_outcome :
  forall (St : Type) (conn : Provider St) (has_sdk : bool) (i : invocation)
         (st : St),
    exists o, outcome_of (run conn has_sdk i) st = SystemExit o.
Proof.
  intros St conn has_sdk i st.
  destruct i as [[chk p]|[chk p]|[chk p]]; destruct p; unfold_run.
  all: crunch; eexists; reflexivity.
Qed.

(** X2.  When one of the checks at the head of [main] fails (SDK not
    importable, no token, an option the state requires missing), the run
    ends in [fail_json] before anything is asked of the provider: no
    lookup, no SDK call, in check mode or not. *)
Theorem failed_checks_ask_nothing :
  forall (St : Type) (conn : Provider St) (has_sdk : bool) (i : invocation)
         (st : St),
    ready has_sdk i = false ->
    (exists msg, outcome_of (run conn has_sdk i) st = SystemExit (FailJson msg)) /\
    log_of (run conn has_sdk i) st = [] /\
    final_of (run conn has_sdk i) st = st.
Proof.
  intros St conn has_sdk i st Hready.
  destruct i as [[chk p]|[chk p]|[chk p]]; destruct p; revert Hready;
    unfold_run.
  all: destruct state; crunch; intros Hready; try discriminate Hready;
    repeat split; eexists; reflexivity.
Qed.

Lemma failed_checks_ask_nothing_witness :
  let i := BlockStorageRun
             {| check_mode := false;
                params := block_storage_options present (Some "x") None None
                            None false false |} in
  (exists msg, outcome_of (run cloud true i) [] = SystemExit (FailJson msg)) /\
  log_of (run cloud true i) [] = [] /\
  final_of (run cloud true i) [] = [].
Proof.
  cbv zeta.
  exact (failed_checks_ask_nothing Cloud cloud true
           (BlockStorageRun
              {| check_mode := false;
                 params := block_storage_options present (Some "x") None None
                             None false false |})
           [] eq_refl).
Defined.

(** X3.  The SSH key module addresses an update by the option [ssh_key],
    yet the check in [main] is on [ssh_key_id]: without [ssh_key_id] the
    update is refused before any lookup, whatever [ssh_key] holds; with it,
    the first thing asked of the provider is the lookup of [ssh_key], and
    [ssh_key_id] is not used. *)
Theorem ssh_key_update_is_addressed_by_ssh_key :
  forall (St : Type) (conn : Provider St)
         (m : AnsibleModule SshKey.Params) (st : St),
    SshKey.state (params m) = update ->
    truthy (vstr (SshKey.auth_token (params m))) = true ->
    (truthy (vstr (SshKey.ssh_key_id (params m))) = false ->
     outcome_of (SshKey.main_body conn true m) st
       = SystemExit
           (FailJson "'ssh_key_id' parameter is required to update a SSH key.") /\
     log_of (SshKey.main_body conn true m) st = []) /\
    (truthy (vstr (SshKey.ssh_key_id (params m))) = true ->
     exists rest,
       log_of (SshKey.main_body conn true m) st
         = HelperCall get_ssh_key [vstr (SshKey.ssh_key (params m)); VBool true]
           :: rest).
Proof.
  intros St conn [chk p] st Hstate Hauth.
  destruct p; cbn in Hstate, Hauth; subst.
  split; intros Hid; unfold_run; crunch; try (split; reflexivity);
    eexists; reflexivity.
Qed.

Lemma ssh_key_update_is_addressed_by_ssh_key_witness :
  let by_key := {| check_mode := false;
                   params := ssh_key_options update None (Some "renamed")
                               (Some "k1") |} in
  let by_id := {| check_mode := false;
                  params := ssh_key_options update (Some "k1")
                              (Some "renamed") None |} in
  (outcome_of (SshKey.main_body cloud true by_key) [("id-1", "k1")]
     = SystemExit
         (FailJson "'ssh_key_id' parameter is required to update a SSH key.") /\
   log_of (SshKey.main_body cloud true by_key) [("id-1", "k1")] = []) /\
  exists rest,
    log_of (SshKey.main_body cloud true by_id) [("id-1", "k1")]
      = HelperCall get_ssh_key [VNone; VBool true] :: rest.
Proof.
  cbv zeta. split.
  - exact (proj1 (ssh_key_update_is_addressed_by_ssh_key Cloud cloud
                    {| check_mode := false;
                       params := ssh_key_options update None (Some "renamed")
                                   (Some "k1") |}
                    [("id-1", "k1")] eq_refl eq_refl) eq_refl).
  - exact (proj2 (ssh_key_update_is_addressed_by_ssh_key Cloud cloud
                    {| check_mode := false;
                       params := ssh_key_options update (Some "k1")
                                   (Some "renamed") None |}
                    [("id-1", "k1")] eq_refl eq_refl) eq_refl).
Defined.

(** X4.  Updating an SSH key the resolver does not find: outside check mode
    the run fails with ["SSH key <ssh_key> not found."]; in check mode it
    exits with [changed=false].  Either way the lookup is all that is asked
    of the provider. *)
Theorem update_missing_ssh_key :
  forall (St : Type) (conn : Provider St) (has_sdk : bool)
         (m : AnsibleModule SshKey.Params) (st st' : St),
    SshKey.state (params m) = update ->
    ready has_sdk (SshKeyRun m) = true ->
    util conn get_ssh_key [vstr (SshKey.ssh_key (params m)); VBool true] st
      = (inr VNone, st') ->
    log_of (SshKey.main_body conn has_sdk m) st
      = [HelperCall get_ssh_key [vstr (SshKey.ssh_key (params m)); VBool true]] /\
    outcome_of (SshKey.main_body conn has_sdk m) st
      = SystemExit
          (if check_mode m then ExitJson (VBool false) None
           else FailJson ("SSH key " ++ format_s (SshKey.ssh_key (params m))
                          ++ " not found.")).
Proof.
  intros St conn has_sdk [chk p] st st' Hstate Hready Hfind.
  destruct p; cbn in Hstate, Hfind; subst.
  revert Hready; unfold_run; crunch; intros Hready; try discriminate Hready;
    split; reflexivity.
Qed.

Lemma update_missing_ssh_key_witness :
  let m := {| check_mode := false;
              params := ssh_key_options update (Some "k1") (Some "renamed")
                          (Some "k1") |} in
  log_of (SshKey.main_body cloud true m) []
    = [HelperCall get_ssh_key [VStr "k1"; VBool true]] /\
  outcome_of (SshKey.main_body cloud true m) []
    = SystemExit (FailJson "SSH key k1 not found.").
Proof.
  cbv zeta.
  exact (update_missing_ssh_key Cloud cloud true
           {| check_mode := false;
              params := ssh_key_options update (Some "k1") (Some "renamed")
                          (Some "k1") |}
           [] [] eq_refl eq_refl eq_refl).
Defined.

(** X5.  An SSH key update outside check mode on a key the resolver finds
    always issues the modify call, on the id of the key found, with the
    [name] and [description] options as they are (also when both are
    unset).  Without [wait] the run returns what the modify call returned;
    with [wait] it calls the waiter on the id of that answer and returns
    the key as [get_ssh_key] reads it afterwards. *)
Theorem ssh_key_update_modifies_then_rereads :
  forall (St : Type) (conn : Provider St) (has_sdk : bool)
         (m : AnsibleModule SshKey.Params) (st st1 st2 : St)
         (r rid r2 : value),
    check_mode m = false ->
    SshKey.state (params m) = update ->
    ready has_sdk (SshKeyRun m) = true ->
    answer conn (update_lookup (SshKeyRun m)) st = (inr r, st1) ->
    subscript r "id" = inr rid ->
    answer conn (modify_call (SshKeyRun m) rid) st1 = (inr r2, st2) ->
    (SshKey.wait (params m) = false ->
     outcome_of (SshKey.main_body conn has_sdk m) st
       = SystemExit (ExitJson (VBool (truthy r2)) (Some r2)) /\
     log_of (SshKey.main_body conn has_sdk m) st
       = [update_lookup (SshKeyRun m); modify_call (SshKeyRun m) rid]) /\
    (SshKey.wait (params m) = true ->
     forall (rid2 w r3 : value) (st3 st4 : St),
       subscript r2 "id" = inr rid2 ->
       answer conn (wait_call (SshKeyRun m) rid2) st2 = (inr w, st3) ->
       sdk conn sdk_get_ssh_key [rid2] st3 = (inr r3, st4) ->
       outcome_of (SshKey.main_body conn has_sdk m) st
         = SystemExit (ExitJson (VBool (truthy r3)) (Some r3)) /\
       log_of (SshKey.main_body conn has_sdk m) st
         = [update_lookup (SshKeyRun m); modify_call (SshKeyRun m) rid;
            wait_call (SshKeyRun m) rid2; SdkCall sdk_get_ssh_key [rid2]]).
Proof.
  intros St conn has_sdk [chk p] st st1 st2 r rid r2
         Hdry Hstate Hready Hfind Hid Hmod.
  pose proof (subscript_not_none _ _ _ Hid) as Hsome.
  destruct p; cbn in Hdry, Hstate, Hfind, Hmod; subst.
  split.
  - intros Hwait; cbn in Hwait; subst. revert Hready.
    unfold_run; crunch; intros Hready; try discriminate Hready;
      split; reflexivity.
  - intros Hwait rid2 w r3 st3 st4 Hid2 Hw Hget; cbn in Hwait, Hw; subst.
    revert Hready.
    unfold_run; crunch; intros Hready; try discriminate Hready;
      split; reflexivity.
Qed.

Lemma ssh_key_update_modifies_then_rereads_witness :
  let m := {| check_mode := false;
              params := ssh_key_options update (Some "k1") (Some "renamed")
                          (Some "k1") |} in
  outcome_of (SshKey.main_body cloud true m) [("id-1", "k1")]
    = SystemExit (ExitJson (VBool true) (Some (snapshot ("id-1", "renamed")))) /\
  log_of (SshKey.main_body cloud true m) [("id-1", "k1")]
    = [update_lookup (SshKeyRun m); modify_call (SshKeyRun m) (VStr "id-1");
       wait_call (SshKeyRun m) (VStr "id-1");
       SdkCall sdk_get_ssh_key [VStr "id-1"]].
Proof.
  cbv zeta.
  destruct (ssh_key_update_modifies_then_rereads Cloud cloud true
              {| check_mode := false;
                 params := ssh_key_options update (Some "k1") (Some "renamed")
                             (Some "k1") |}
              [("id-1", "k1")] [("id-1", "k1")] [("id-1", "renamed")]
              (snapshot ("id-1", "k1")) (VStr "id-1")
              (snapshot ("id-1", "renamed"))
              eq_refl eq_refl eq_refl eq_refl eq_refl eq_refl)
    as [_ Hwait].
  exact (Hwait eq_refl (VStr "id-1") VNone (snapshot ("id-1", "renamed"))
           [("id-1", "renamed")] [("id-1", "renamed")]
           eq_refl eq_refl eq_refl).
Defined.

(** X6.  Deleting an SSH key the resolver finds, outside check mode: the
    delete call is made on the id of the key found, and the run returns
    only the id and the name of what the delete call answered, with
    [changed] the truthiness of that answer. *)
Theorem delete_ssh_key_returns_id_and_name :
  forall (St : Type) (conn : Provider St) (has_sdk : bool)
         (m : AnsibleModule SshKey.Params) (st st1 st2 : St)
         (r rid d did dname : value),
    check_mode m = false ->
    SshKey.state (params m) = absent ->
    ready has_sdk (SshKeyRun m) = true ->
    answer conn (absent_lookup (SshKeyRun m)) st = (inr r, st1) ->
    subscript r "id" = inr rid ->
    sdk conn sdk_delete_ssh_key [rid] st1 = (inr d, st2) ->
    subscript d "id" = inr did ->
    subscript d "name" = inr dname ->
    outcome_of (SshKey.main_body conn has_sdk m) st
      = SystemExit (ExitJson (VBool (truthy d)) (Some (id_and_name did dname))) /\
    log_of (SshKey.main_body conn has_sdk m) st
      = [absent_lookup (SshKeyRun m); SdkCall sdk_delete_ssh_key [rid]] /\
    final_of (SshKey.main_body conn has_sdk m) st = st2.
Proof.
  intros St conn has_sdk [chk p] st st1 st2 r rid d did dname
         Hdry Hstate Hready Hfind Hid Hdel Hdid Hdname.
  pose proof (subscript_not_none _ _ _ Hid) as Hsome.
  destruct p; cbn in Hdry, Hstate, Hfind; subst.
  revert Hready; unfold_run; crunch; intros Hready; try discriminate Hready;
    repeat split.
Qed.

Lemma delete_ssh_key_returns_id_and_name_witness :
  let m := {| check_mode := false;
              params := ssh_key_options absent (Some "k1") None None |} in
  outcome_of (SshKey.main_body cloud true m) [("id-1", "k1"); ("id-2", "k2")]
    = SystemExit (ExitJson (VBool true)
                    (Some (id_and_name (VStr "id-1") (VStr "k1")))) /\
  log_of (SshKey.main_body cloud true m) [("id-1", "k1"); ("id-2", "k2")]
    = [absent_lookup (SshKeyRun m); SdkCall sdk_delete_ssh_key [VStr "id-1"]] /\
  final_of (SshKey.main_body cloud true m) [("id-1", "k1"); ("id-2", "k2")]
    = [("id-2", "k2")].
Proof.
  cbv zeta.
  exact (delete_ssh_key_returns_id_and_name Cloud cloud true
           {| check_mode := false;
              params := ssh_key_options absent (Some "k1") None None |}
           [("id-1", "k1"); ("id-2", "k2")] [("id-1", "k1"); ("id-2", "k2")]
           [("id-2", "k2")]
           (snapshot ("id-1", "k1")) (VStr "id-1") (snapshot ("id-1", "k1"))
           (VStr "id-1") (VStr "k1")
           eq_refl eq_refl eq_refl eq_refl eq_refl eq_refl eq_refl eq_refl).
Defined.

(** X7.  Removing a block storage or a shared storage outside check mode:
    whatever the resolver answers for the [name] option is handed to the
    delete call as it is.  When the answer of the delete call has an id and
    a name the run returns those two, with [changed] its truthiness; when
    it lacks the id, the run ends in [fail_json] although the delete call
    has been made. *)
Theorem remove_storage_passes_resolved_id :
  forall (St : Type) (conn : Provider St) (has_sdk : bool) (i : invocation)
         (st st1 st2 : St) (x d : value),
    storage i = true ->
    dry_run i = false ->
    desired i = absent ->
    ready has_sdk i = true ->
    answer conn (absent_lookup i) st = (inr x, st1) ->
    sdk conn (delete_method i) [x] st1 = (inr d, st2) ->
    log_of (run conn has_sdk i) st
      = [absent_lookup i; SdkCall (delete_method i) [x]] /\
    final_of (run conn has_sdk i) st = st2 /\
    (forall did dname,
        subscript d "id" = inr did ->
        subscript d "name" = inr dname ->
        outcome_of (run conn has_sdk i) st
          = SystemExit (ExitJson (VBool (truthy d))
                          (Some (id_and_name did dname)))) /\
    (forall e,
        subscript d "id" = inl e ->
        outcome_of (run conn has_sdk i) st
          = SystemExit (FailJson (str_exn e))).
Proof.
  intros St conn has_sdk i st st1 st2 x d Hkind Hdry Hstate Hready Hfind Hdel.
  destruct i as [[chk p]|[chk p]|[chk p]]; try discriminate Hkind;
    destruct p; cbn in Hdry, Hstate, Hfind, Hdel; subst.
  all: split; [|split; [|split]];
    try (intros did dname Hdid Hdname); try (intros e He);
    revert Hready; unfold_run; crunch; intros Hready;
    try discriminate Hready; reflexivity.
Qed.

Lemma remove_storage_passes_resolved_id_witness :
  let i := SharedStorageRun
             {| check_mode := false;
                params := shared_storage_options absent (Some "data") None
                            None [] None false false |} in
  log_of (run cloud true i) [("id-1", "data")]
    = [absent_lookup i; SdkCall sdk_delete_shared_storage [VStr "id-1"]] /\
  final_of (run cloud true i) [("id-1", "data")] = [] /\
  outcome_of (run cloud true i) [("id-1", "data")]
    = SystemExit (ExitJson (VBool true)
                    (Some (id_and_name (VStr "id-1") (VStr "data")))).
Proof.
  cbv zeta.
  destruct (remove_storage_passes_resolved_id Cloud cloud true
              (SharedStorageRun
                 {| check_mode := false;
                    params := shared_storage_options absent (Some "data") None
                                None [] None false false |})
              [("id-1", "data")] [("id-1", "data")] []
              (VStr "id-1") (snapshot ("id-1", "data"))
              eq_refl eq_refl eq_refl eq_refl eq_refl eq_refl)
    as [Hlog [Hfinal [Hok _]]].
  split; [exact Hlog|]. split; [exact Hfinal|].
  exact (Hok (VStr "id-1") (VStr "data") eq_refl eq_refl).
Defined.

(** X8.  [state=present] outside check mode when the create call raises:
    the run ends in [fail_json] with the text of that exception, and the
    create call is the only thing that was asked of the provider. *)
Theorem create_failure_is_reported_verbatim :
  forall (St : Type) (conn : Provider St) (has_sdk : bool) (i : invocation)
         (st st1 : St) (e : exn),
    dry_run i = false ->
    desired i = present ->
    ready has_sdk i = true ->
    sdk conn (create_method i) [create_request i] st = (inl e, st1) ->
    outcome_of (run conn has_sdk i) st = SystemExit (FailJson (str_exn e)) /\
    log_of (run conn has_sdk i) st
      = [SdkCall (create_method i) [create_request i]] /\
    final_of (run conn has_sdk i) st = st1.
Proof.
  intros St conn has_sdk i st st1 e Hdry Hstate Hready Hcreate.
  destruct i as [[chk p]|[chk p]|[chk p]]; destruct p;
    cbn in Hdry, Hstate, Hcreate; subst;
    revert Hready; unfold_run; crunch; intros Hready;
    try discriminate Hready; repeat split.
Qed.

Lemma create_failure_is_reported_verbatim_witness :
  let i := SshKeyRun
             {| check_mode := false;
                params := ssh_key_options present None None None |} in
  outcome_of (run cloud true i) [] = SystemExit (FailJson "400 Bad Request") /\
  log_of (run cloud true i) []
    = [SdkCall sdk_create_ssh_key [VObj "SshKey" [VNone; VNone; VNone]]] /\
  final_of (run cloud true i) [] = [].
Proof.
  cbv zeta.
  exact (create_failure_is_reported_verbatim Cloud cloud true
           (SshKeyRun
              {| check_mode := false;
                 params := ssh_key_options present None None None |})
           [] [] (RemoteError "400 Bad Request")
           eq_refl eq_refl eq_refl eq_refl).
Defined.

(** X9.  [state=present] with [wait] outside check mode: after the create
    call the waiter is called once, on the id of the created resource and
    with the [wait_timeout] and [wait_interval] options.  When the waiter
    raises (a timeout, say), the run ends in [fail_json] with the text of
    that exception; the resource stays created, no call undoes it. *)
Theorem failed_wait_leaves_the_resource_created :
  forall (St : Type) (conn : Provider St) (has_sdk : bool) (i : invocation)
         (st st1 st2 : St) (r rid : value) (e : exn),
    dry_run i = false ->
    desired i = present ->
    ready has_sdk i = true ->
    option_of i "wait" = VBool true ->
    sdk conn (create_method i) [create_request i] st = (inr r, st1) ->
    subscript r "id" = inr rid ->
    answer conn (wait_call i rid) st1 = (inl e, st2) ->
    outcome_of (run conn has_sdk i) st = SystemExit (FailJson (str_exn e)) /\
    log_of (run conn has_sdk i) st
      = [SdkCall (create_method i) [create_request i]; wait_call i rid] /\
    final_of (run conn has_sdk i) st = st2.
Proof.
  intros St conn has_sdk i st st1 st2 r rid e
         Hdry Hstate Hready Hwait Hcreate Hid Hw.
  destruct i as [[chk p]|[chk p]|[chk p]]; destruct p;
    cbn in Hdry, Hstate, Hcreate, Hwait, Hw; injection Hwait as ->; subst;
    revert Hready; unfold_run; crunch; intros Hready;
    try discriminate Hready; repeat split.
Qed.

Lemma failed_wait_leaves_the_resource_created_witness :
  let i := BlockStorageRun
             {| check_mode := false;
                params := block_storage_options present (Some "x") None
                            (Some 20%Z) None false false |} in
  outcome_of (run slow_cloud true i) []
    = SystemExit (FailJson "Timed out waiting for resource") /\
  log_of (run slow_cloud true i) []
    = [SdkCall sdk_create_block_storage [create_request i];
       HelperCall wait_for_resource_creation_completion
         [VStr "block_storage"; VStr "id-x"; VInt 600; VInt 5]] /\
  final_of (run slow_cloud true i) [] = [("id-x", "x")].
Proof.
  cbv zeta.
  exact (failed_wait_leaves_the_resource_created Cloud slow_cloud true
           (BlockStorageRun
              {| check_mode := false;
                 params := block_storage_options present (Some "x") None
                             (Some 20%Z) None false false |})
           [] [("id-x", "x")] [("id-x", "x")]
           (snapshot ("id-x", "x")) (VStr "id-x")
           (RemoteError "Timed out waiting for resource")
           eq_refl eq_refl eq_refl eq_refl eq_refl eq_refl eq_refl).
Defined.

(** X10.  The waiter is called at most once in a run, and only where a
    resource has just been created or an SSH key modified: if the log holds
    a waiter call then [wait] is true and the state is [present], or the
    module is the SSH key module and the state is [update].  In particular
    the block storage and shared storage modules never wait in
    [state=update] or [state=absent], whatever [wait] is. *)
Theorem waiter_is_called_only_after_create :
  forall (St : Type) (conn : Provider St) (has_sdk : bool) (i : invocation)
         (st : St),
    (length (filter is_wait (log_of (run conn has_sdk i) st)) <= 1)%nat /\
    (filter is_wait (log_of (run conn has_sdk i) st) = [] \/
     (option_of i "wait" = VBool true /\
      (desired i = present \/ (storage i = false /\ desired i = update)))).
Proof.
  intros St conn has_sdk i st.
  destruct i as [[chk p]|[chk p]|[chk p]]; destruct p; unfold_run.
  all: crunch; (split; [cbn; lia|]); cbn; auto.
Qed.

(** X11.  Detaching a block storage outside check mode (nothing else asked
    for): the detach call is made on the id of the storage found, its
    answer is dropped, and the run returns [changed=true] with the storage
    as the resolver finds it by that id after the call. *)
Theorem block_storage_detach_rereads :
  forall (St : Type) (conn : Provider St) (has_sdk : bool)
         (m : AnsibleModule BlockStorage.Params) (st st1 st2 st3 : St)
         (r rid d r' : value),
    check_mode m = false ->
    BlockStorage.state (params m) = update ->
    ready has_sdk (BlockStorageRun m) = true ->
    renames (BlockStorageRun m) = false ->
    BlockStorage.attach (params m) = false ->
    BlockStorage.detach (params m) = true ->
    answer conn (update_lookup (BlockStorageRun m)) st = (inr r, st1) ->
    subscript r "id" = inr rid ->
    sdk conn sdk_detach_block_storage [rid] st1 = (inr d, st2) ->
    util conn get_block_storage [rid; VBool true] st2 = (inr r', st3) ->
    outcome_of (BlockStorage.main_body conn has_sdk m) st
      = SystemExit (ExitJson (VBool true) (Some r')) /\
    log_of (BlockStorage.main_body conn has_sdk m) st
      = [update_lookup (BlockStorageRun m);
         SdkCall sdk_detach_block_storage [rid];
         HelperCall get_block_storage [rid; VBool true]] /\
    final_of (BlockStorage.main_body conn has_sdk m) st = st3.
Proof.
  intros St conn has_sdk [chk p] st st1 st2 st3 r rid d r'
         Hdry Hstate Hready Hren Hatt Hdet Hfind Hid Hdetach Hagain.
  pose proof (subscript_not_none _ _ _ Hid) as Hsome.
  destruct p; cbn in Hdry, Hstate, Hren, Hatt, Hdet, Hfind; subst.
  revert Hready; unfold_run; crunch; intros Hready; try discriminate;
    repeat split.
Qed.

Lemma block_storage_detach_rereads_witness :
  let m := {| check_mode := false;
              params := block_storage_options update None (Some "data") None
                          None false true |} in
  outcome_of (BlockStorage.main_body detaching_cloud true m) [("id-1", "data")]
    = SystemExit (ExitJson (VBool true) (Some (snapshot ("id-1", "data")))) /\
  log_of (BlockStorage.main_body detaching_cloud true m) [("id-1", "data")]
    = [HelperCall get_block_storage [VStr "data"; VBool true];
       SdkCall sdk_detach_block_storage [VStr "id-1"];
       HelperCall get_block_storage [VStr "id-1"; VBool true]] /\
  final_of (BlockStorage.main_body detaching_cloud true m) [("id-1", "data")]
    = [("id-1", "data")].
Proof.
  cbv zeta.
  exact (block_storage_detach_rereads Cloud detaching_cloud true
           {| check_mode := false;
              params := block_storage_options update None (Some "data") None
                          None false true |}
           [("id-1", "data")] [("id-1", "data")] [("id-1", "data")]
           [("id-1", "data")]
           (snapshot ("id-1", "data")) (VStr "id-1") VNone
           (snapshot ("id-1", "data"))
           eq_refl eq_refl eq_refl eq_refl eq_refl eq_refl eq_refl eq_refl
           eq_refl eq_refl).
Defined.

(** X12.  Updating a block storage or a shared storage the resolver does not
    find, outside check mode and with no password change: when nothing is
    asked for, the run reports success, [changed=false] with [None] for the
    storage; when a rename, an attach or a detach is asked for, it ends in
    [fail_json] with the text of the [TypeError] of [None['id']].  Either
    way the lookup is all that is asked of the provider: there is no
    not-found message of the module's own. *)
Theorem update_unresolved_storage :
  forall (St : Type) (conn : Provider St) (has_sdk : bool) (i : invocation)
         (st st1 : St),
    storage i = true ->
    dry_run i = false ->
    desired i = update ->
    ready has_sdk i = true ->
    truthy (option_of i "password") = false ->
    answer conn (update_lookup i) st = (inr VNone, st1) ->
    log_of (run conn has_sdk i) st = [update_lookup i] /\
    final_of (run conn has_sdk i) st = st1 /\
    outcome_of (run conn has_sdk i) st
      = SystemExit
          (if renames i || truthy (option_of i "attach")
              || truthy (option_of i "detach")
           then FailJson none_subscript_message
           else ExitJson (VBool false) (Some VNone)).
Proof.
  intros St conn has_sdk i st st1 Hkind Hdry Hstate Hready Hpw Hfind.
  destruct i as [[chk p]|[chk p]|[chk p]]; try discriminate Hkind;
    destruct p; cbn in Hdry, Hstate, Hpw, Hfind; subst;
    revert Hready; unfold_run; crunch_none; intros Hready;
    try discriminate; repeat split.
Qed.

Lemma update_unresolved_storage_witness :
  let i := BlockStorageRun
             {| check_mode := false;
                params := block_storage_options update (Some "renamed")
                            (Some "gone") None None false false |} in
  log_of (run cloud true i) [] = [update_lookup i] /\
  final_of (run cloud true i) [] = [] /\
  outcome_of (run cloud true i) []
    = SystemExit (FailJson none_subscript_message).
Proof.
  cbv zeta.
  exact (update_unresolved_storage Cloud cloud true
           (BlockStorageRun
              {| check_mode := false;
                 params := block_storage_options update (Some "renamed")
                             (Some "gone") None None false false |})
           [] [] eq_refl eq_refl eq_refl eq_refl eq_refl eq_refl).
Defined.

(** X13.  A password change through the shared storage module (nothing else
    asked for, outside check mode): [change_password] is called with the
    password alone, no storage id, and whatever the resolver found for the
    [shared_storage] option, even nothing; the run returns [changed=true]
    with the answer of that call in place of the storage. *)
Theorem password_change_ignores_the_storage :
  forall (St : Type) (conn : Provider St) (has_sdk : bool)
         (m : AnsibleModule SharedStorage.Params) (st st1 st2 : St)
         (r v : value),
    check_mode m = false ->
    SharedStorage.state (params m) = update ->
    ready has_sdk (SharedStorageRun m) = true ->
    renames (SharedStorageRun m) = false ->
    truthy (vstr (SharedStorage.password (params m))) = true ->
    SharedStorage.attach (params m) = false ->
    SharedStorage.detach (params m) = false ->
    answer conn (update_lookup (SharedStorageRun m)) st = (inr r, st1) ->
    sdk conn sdk_change_password [vstr (SharedStorage.password (params m))] st1
      = (inr v, st2) ->
    outcome_of (SharedStorage.main_body conn has_sdk m) st
      = SystemExit (ExitJson (VBool true) (Some v)) /\
    log_of (SharedStorage.main_body conn has_sdk m) st
      = [update_lookup (SharedStorageRun m);
         SdkCall sdk_change_password
           [vstr (SharedStorage.password (params m))]] /\
    final_of (SharedStorage.main_body conn has_sdk m) st = st2.
Proof.
  intros St conn has_sdk [chk p] st st1 st2 r v
         Hdry Hstate Hready Hren Hpw Hatt Hdet Hfind Hchange.
  destruct p; cbn in Hdry, Hstate, Hren, Hpw, Hatt, Hdet, Hfind, Hchange;
    subst.
  revert Hready; unfold_run; crunch; intros Hready; try discriminate;
    repeat split.
Qed.

(** The password is changed although no shared storage ["gone"] exists. *)
Lemma password_change_ignores_the_storage_witness :
  let m := {| check_mode := false;
              params := with_password "secret"
                          (shared_storage_options update None (Some "gone")
                             None [] None false false) |} in
  outcome_of (SharedStorage.main_body password_cloud true m) []
    = SystemExit (ExitJson (VBool true)
                    (Some (VDict [("state", VStr "CONFIGURING")]))) /\
  log_of (SharedStorage.main_body password_cloud true m) []
    = [HelperCall get_shared_storage [VStr "gone"; VBool true];
       SdkCall sdk_change_password [VStr "secret"]] /\
  final_of (SharedStorage.main_body password_cloud true m) [] = [].
Proof.
  cbv zeta.
  exact (password_change_ignores_the_storage Cloud password_cloud true
           {| check_mode := false;
              params := with_password "secret"
                          (shared_storage_options update None (Some "gone")
                             None [] None false false) |}
           [] [] [] VNone (VDict [("state", VStr "CONFIGURING")])
           eq_refl eq_refl eq_refl eq_refl eq_refl eq_refl eq_refl eq_refl
           eq_refl).
Defined.

(** X14.  A dry run of [state=present] asks nothing of the provider, not
    even a lookup: the block storage and shared storage modules report
    [changed=true], the SSH key module reports the [name] option itself. *)
Theorem dry_run_of_present_asks_nothing :
  forall (St : Type) (conn : Provider St) (has_sdk : bool) (i : invocation)
         (st : St),
    dry_run i = true ->
    desired i = present ->
    ready has_sdk i = true ->
    outcome_of (run conn has_sdk i) st
      = SystemExit (ExitJson (if storage i then VBool true
                              else option_of i "name") None) /\
    log_of (run conn has_sdk i) st = [] /\
    final_of (run conn has_sdk i) st = st.
Proof.
  intros St conn has_sdk i st Hdry Hstate Hready.
  destruct i as [[chk p]|[chk p]|[chk p]]; destruct p;
    cbn in Hdry, Hstate; subst;
    revert Hready; unfold_run; crunch; intros Hready;
    try discriminate Hready; repeat split.
Qed.

Lemma dry_run_of_present_asks_nothing_witness :
  let i := SshKeyRun
             {| check_mode := true;
                params := ssh_key_options present None (Some "laptop") None |} in
  outcome_of (run cloud true i) [("id-1", "laptop")]
    = SystemExit (ExitJson (VStr "laptop") None) /\
  log_of (run cloud true i) [("id-1", "laptop")] = [] /\
  final_of (run cloud true i) [("id-1", "laptop")] = [("id-1", "laptop")].
Proof.
  cbv zeta.
  exact (dry_run_of_present_asks_nothing Cloud cloud true
           (SshKeyRun
              {| check_mode := true;
                 params := ssh_key_options present None (Some "laptop")
                             None |})
           [("id-1", "laptop")] eq_refl eq_refl eq_refl).
Defined.

(** The helpers of [module_utils.oneandone], compared. *)
Definition helper_eq_dec (a b : helper) : {a = b} + {a <> b}.
Proof. decide equality. Defined.

(** The calls of the helper [h] in a log. *)
Definition helper_calls_of (h : helper) (t : list event) : list event :=
  filter (fun e => match e with
                   | HelperCall h' _ => if helper_eq_dec h h' then true else false
                   | SdkCall _ _ => false
                   end) t.

(** X15.  What the code of a module itself asks for in one run is bounded:
    it calls each method of the SDK connection at most once, and each
    helper of [module_utils.oneandone] at most once, except
    [get_block_storage], which a block storage detach calls a second time to
    read the storage again.  (The calls a helper makes on the connection
    inside are not part of the modules and are not counted.) *)
Theorem calls_of_a_run_are_bounded :
  forall (St : Type) (conn : Provider St) (has_sdk : bool) (i : invocation)
         (st : St),
    (forall m : sdk_method,
        (length (calls_of m (log_of (run conn has_sdk i) st)) <= 1)%nat) /\
    (forall h : helper,
        (length (helper_calls_of h (log_of (run conn has_sdk i) st))
         <= match h with get_block_storage => 2 | _ => 1 end)%nat).
Proof.
  intros St conn has_sdk i st.
  destruct i as [[chk p]|[chk p]|[chk p]]; destruct p; unfold_run.
  all: crunch; split; intros x; destruct x; cbn; lia.
Qed.

(** X16.  For the SSH key module in [state=absent] and [state=update] the
    dry run is a safe forecast: when the run in check mode reports a
    [changed] that is false, the run outside check mode, from the same
    provider state and with the same options, issues no mutating call. *)
Theorem ssh_key_dry_run_false_means_no_mutation :
  forall (St : Type) (conn : Provider St) (has_sdk : bool)
         (p : SshKey.Params) (st : St) (changed : value) (data : option value),
    SshKey.state p <> present ->
    outcome_of (SshKey.main_body conn has_sdk
                  {| check_mode := true; params := p |}) st
      = SystemExit (ExitJson changed data) ->
    truthy changed = false ->
    mutations (log_of (SshKey.main_body conn has_sdk
                         {| check_mode := false; params := p |}) st) = [].
Proof.
  intros St conn has_sdk p st changed data Hstate.
  destruct p; cbn in Hstate.
  destruct state; try congruence; clear Hstate; unfold_run.
  all: crunch; intros Hout Hfalse; try discriminate Hout;
    injection Hout as <- <-; cbn in *; try discriminate; reflexivity.
Qed.

Lemma ssh_key_dry_run_false_means_no_mutation_witness :
  let p := ssh_key_options absent (Some "k1") None None in
  mutations (log_of (SshKey.main_body cloud true
                       {| check_mode := false; params := p |})
               [("id-7", "other")]) = [].
Proof.
  cbv zeta.
  refine (ssh_key_dry_run_false_means_no_mutation Cloud cloud true
            (ssh_key_options absent (Some "k1") None None)
            [("id-7", "other")] (VBool false) None _ eq_refl eq_refl).
  discriminate.
Defined.

(** X17.  The sub-actions of one storage update work on the latest
    snapshot: outside check mode, with a rename and an attach asked for (no
    password change, no detach), the attach call is made on the id the
    modify call answered, not on the id first resolved, and the run returns
    [changed=true] with the answer of the attach call. *)
Theorem rename_then_attach_uses_the_modified_snapshot :
  forall (St : Type) (conn : Provider St) (has_sdk : bool) (i : invocation)
         (st st1 st2 st3 : St) (r rid r2 rid2 r3 : value),
    dry_run i = false ->
    desired i = update ->
    ready has_sdk i = true ->
    renames i = true ->
    truthy (option_of i "password") = false ->
    option_of i "attach" = VBool true ->
    option_of i "detach" = VBool false ->
    answer conn (update_lookup i) st = (inr r, st1) ->
    subscript r "id" = inr rid ->
    answer conn (modify_call i rid) st1 = (inr r2, st2) ->
    subscript r2 "id" = inr rid2 ->
    answer conn (attach_call i rid2) st2 = (inr r3, st3) ->
    outcome_of (run conn has_sdk i) st
      = SystemExit (ExitJson (VBool true) (Some r3)) /\
    log_of (run conn has_sdk i) st
      = [update_lookup i; modify_call i rid; attach_call i rid2] /\
    final_of (run conn has_sdk i) st = st3.
Proof.
  intros St conn has_sdk i st st1 st2 st3 r rid r2 rid2 r3
         Hdry Hstate Hready Hren Hpw Hatt Hdet Hfind Hid Hmod Hid2 Hattach.
  pose proof (subscript_not_none _ _ _ Hid) as Hsome.
  destruct i as [[chk p]|[chk p]|[chk p]]; destruct p;
    cbn in Hdry, Hstate, Hatt, Hdet, Hfind, Hmod, Hattach, Hpw, Hren;
    try discriminate Hatt; injection Hatt as ->; injection Hdet as ->; subst;
    revert Hready; unfold_run; crunch; intros Hready;
    try discriminate; repeat split.
Qed.

Lemma rename_then_attach_uses_the_modified_snapshot_witness :
  let i := BlockStorageRun
             {| check_mode := false;
                params := block_storage_options update (Some "renamed")
                            (Some "data") None (Some "s1") true false |} in
  outcome_of (run cloud true i) [("id-1", "data")]
    = SystemExit (ExitJson (VBool true) (Some (snapshot ("id-1", "renamed")))) /\
  log_of (run cloud true i) [("id-1", "data")]
    = [update_lookup i; modify_call i (VStr "id-1");
       attach_call i (VStr "id-1")] /\
  final_of (run cloud true i) [("id-1", "data")] = [("id-1", "renamed")].
Proof.
  cbv zeta.
  exact (rename_then_attach_uses_the_modified_snapshot Cloud cloud true
           (BlockStorageRun
              {| check_mode := false;
                 params := block_storage_options update (Some "renamed")
                             (Some "data") None (Some "s1") true false |})
           [("id-1", "data")] [("id-1", "data")] [("id-1", "renamed")]
           [("id-1", "renamed")]
           (snapshot ("id-1", "data")) (VStr "id-1")
           (snapshot ("id-1", "renamed")) (VStr "id-1")
           (snapshot ("id-1", "renamed"))
           eq_refl eq_refl eq_refl eq_refl eq_refl eq_refl eq_refl eq_refl
           eq_refl eq_refl eq_refl eq_refl).
Defined.
